(** * velruse: the OpenID consumer ([velruse/providers/openidconsumer.py])

    A shallow embedding of the attribute normalizer ([AttribAccess],
    [extract_openid_data]) and of the two handlers of [OpenIDResponder]
    ([login], [process]), with the properties of the specification
    stated over them.

    Conventions.
    - The module is Python 2 code: [ud.items()] is a list, so the final
      loop of [extract_openid_data] may delete from [ud] while it walks it.
    - A Python dict is a [gmap]; a [str] is a [string]; a value that is
      either [None] or a [str] is an [option string].
    - A call that may raise returns a [result]. *)

From stdpp Require Import base option strings list gmap fin_maps.
From Stdlib Require Import Ascii String.

Open Scope string_scope.

(* ================================================================== *)
(** * Python values and exceptions                                     *)
(* ================================================================== *)

(** The exceptions that the modelled code can raise. *)
Inductive exn : Type :=
| TypeError                 (* re.match on None *)
| AttributeError            (* .groups() on a failed match *)
| KeyError (k : string)     (* d[k] on a missing key *)
| AXError (uri : string).   (* getSingle on a multi-valued attribute *)

Inductive result (A : Type) : Type :=
| Ok (a : A)
| Raise (e : exn).
Arguments Ok {A} a.
Arguments Raise {A} e.

Definition bind {A B : Type} (r : result A) (k : A → result B) : result B :=
  match r with
  | Ok a => k a
  | Raise e => Raise e
  end.

Notation "'let*' x ':=' r 'in' k" := (bind r (fun x => k))
  (at level 10, x name, r at level 100, k at level 200, only parsing).

(** A value that is [None] or a [str]: what [AttribAccess.get] returns. *)
Abbreviation attr := (option string).

(** The values stored in the profile dict [ud]. *)
Inductive value : Type :=
| VAttr (a : attr)                      (* None or a str *)
| VDict (d : gmap string attr)          (* the 'name' sub-dict *)
| VList (l : list string).              (* the 'urls' list *)

(** Python truthiness of a [str]: every string but the empty one. *)
Definition str_truthy (s : string) : bool :=
  match s with
  | EmptyString => false
  | String _ _ => true
  end.

(** Python truthiness of [None] or a [str]. *)
Definition attr_truthy (a : attr) : bool :=
  match a with
  | None => false
  | Some s => str_truthy s
  end.

(** Python truthiness of a profile value: [None], [''], [{}] and [[]]
    are false. *)
Definition truthy (v : value) : bool :=
  match v with
  | VAttr a => attr_truthy a
  | VDict d => negb (bool_decide (d = ∅))
  | VList l => match l with [] => false | _ :: _ => true end
  end.

(** [a or b] on [None]-or-[str] operands. *)
Definition attr_or (a b : attr) : attr :=
  if attr_truthy a then a else b.

(* ================================================================== *)
(** * Module-level tables                                              *)
(* ================================================================== *)

Definition ax_attributes : gmap string string :=
  list_to_map [
    ("nickname", "http://axschema.org/namePerson/friendly");
    ("email", "http://axschema.org/contact/email");
    ("full_name", "http://axschema.org/namePerson");
    ("birthday", "http://axschema.org/birthDate");
    ("gender", "http://axschema.org/person/gender");
    ("postal_code", "http://axschema.org/contact/postalCode/home");
    ("country", "http://axschema.org/contact/country/home");
    ("timezone", "http://axschema.org/pref/timezone");
    ("language", "http://axschema.org/pref/language");
    ("name_prefix", "http://axschema.org/namePerson/prefix");
    ("first_name", "http://axschema.org/namePerson/first");
    ("last_name", "http://axschema.org/namePerson/last");
    ("middle_name", "http://axschema.org/namePerson/middle");
    ("name_suffix", "http://axschema.org/namePerson/suffix");
    ("web", "http://axschema.org/contact/web/default")
  ].

(** Translation dict for AX attrib names to sreg equiv. *)
Definition trans_dict : gmap string string :=
  list_to_map [
    ("full_name", "fullname");
    ("birthday", "dob");
    ("postal_code", "postcode")
  ].

(** The table [sreg.data_fields] of the python-openid library, whose keys
    are the recognized simple-registration field names.  The functions
    below take the table as a parameter; this is the library's value, the
    nine names that [_update_authrequest] also asks for. *)
Definition openid_sreg_data_fields : gset string :=
  list_to_set [ "fullname"; "nickname"; "dob"; "email"; "gender";
                "postcode"; "country"; "language"; "timezone" ].

(* ================================================================== *)
(** * The two attribute responses                                      *)
(* ================================================================== *)

(** An attribute-exchange message ([ax.AXKeyValueMessage], of which
    [ax.FetchResponse] is a subclass): its [data] maps a type URI to the
    list of values sent for it. *)
Abbreviation ax_message := (gmap string (list string)).

(** [AXKeyValueMessage.getSingle(type_uri)] of python-openid, called by
    [AttribAccess.get]: the default [None] when no value was sent, the
    value when exactly one was, and [AXError] when more than one was. *)
Definition getSingle (ax : ax_message) (type_uri : string) : result attr :=
  match ax !! type_uri with
  | None | Some [] => Ok None
  | Some [v] => Ok (Some v)
  | Some (_ :: _ :: _) => Raise (AXError type_uri)
  end.

(** A simple-registration response: its [data] maps a field name to the
    value sent.  [SRegResponse.get(k)] is [data.get(k)] for a recognized
    field name [k]. *)
Abbreviation sreg_message := (gmap string string).

Record AttribAccess : Type := mkAttribAccess {
  sreg_resp : sreg_message;
  ax_resp : ax_message
}.

(** [AttribAccess.__init__]: a missing response is replaced by an empty
    one ([sreg_resp or {}], [ax_resp or ax.AXKeyValueMessage()]). *)
Definition AttribAccess_init (sreg : option sreg_message)
    (ax : option ax_message) : AttribAccess :=
  {| sreg_resp := default ∅ sreg; ax_resp := default ∅ ax |}.

(* ================================================================== *)
(** * String helpers                                                   *)
(* ================================================================== *)

(** [sub in s] on strings: [sub] occurs in [s] as a substring. *)
Fixpoint contains (sub s : string) : bool :=
  String.prefix sub s ||
  match s with
  | EmptyString => false
  | String _ s' => contains sub s'
  end.

(** [sep.join(l)]. *)
Definition join (sep : string) (l : list string) : string :=
  String.concat sep l.

(** The characters that [str.strip()] removes: space, tab, line feed,
    carriage return, vertical tab and form feed. *)
Definition is_space (c : ascii) : bool :=
  let n := nat_of_ascii c in
  (n =? 32)%nat || ((9 <=? n)%nat && (n <=? 13)%nat).

Fixpoint lstrip (s : string) : string :=
  match s with
  | EmptyString => EmptyString
  | String c s' => if is_space c then lstrip s' else s
  end.

Fixpoint rstrip (s : string) : string :=
  match s with
  | EmptyString => EmptyString
  | String c s' =>
    match rstrip s' with
    | EmptyString => if is_space c then EmptyString else String c EmptyString
    | r => String c r
    end
  end.

(** [s.strip()]. *)
Definition strip (s : string) : string := rstrip (lstrip s).

(** The text that group 1 of the pattern ['(^.*?)@'] captures when the
    pattern is matched at the start of [s]: the lazy [.*?] stops at the
    first ['@'], and [.] does not match a line feed, so the match fails
    when a line feed comes before the first ['@'] or when there is no
    ['@']. *)
Fixpoint match_local_part (s : string) : option string :=
  match s with
  | EmptyString => None
  | String c s' =>
    if Ascii.eqb c "@" then Some EmptyString
    else if Ascii.eqb c "010" then None
    else String c <$> match_local_part s'
  end.

(** [re.match('(^.*?)@', email).groups()[0]]: [re.match] raises
    [TypeError] on [None]; a failed match is [None], whose [.groups]
    raises [AttributeError]. *)
Definition email_local_part (email : attr) : result string :=
  match email with
  | None => Raise TypeError
  | Some s =>
    match match_local_part s with
    | None => Raise AttributeError
    | Some g => Ok g
    end
  end.

(* ================================================================== *)
(** * The attribute normalizer                                         *)
(* ================================================================== *)

Section Normalizer.

(** The keys of [sreg.data_fields]. *)
Variable data_fields : gset string.

(** The step [if key in trans_dict: key = trans_dict[key]] of
    [AttribAccess.get]. *)
Definition sreg_key (key : string) : string :=
  match trans_dict !! key with
  | Some key' => key'
  | None => key
  end.

(** [AttribAccess.get(key, ax_only=False)]. *)
Definition get (self : AttribAccess) (key : string) (ax_only : bool)
    : result attr :=
  (* First attempt to fetch it from AX *)
  match ax_attributes !! key with
  | None => Raise (KeyError key)
  | Some uri =>
    let* v := getSingle (ax_resp self) uri in
    if attr_truthy v then Ok v
    else if ax_only then Ok None
    else
      (* Translate the key if needed *)
      let key := sreg_key key in
      (* Don't attempt to fetch keys that aren't valid sreg fields *)
      if negb (bool_decide (key ∈ data_fields)) then Ok None
      else Ok (sreg_resp self !! key)
  end.

(** [ud[k] == s] for a key that is present. *)
Definition item_is (ud : gmap string value) (k s : string) : bool :=
  match ud !! k with
  | Some (VAttr (Some t)) => bool_decide (t = s)
  | _ => false
  end.

(** [ud.get(k)]: [None] for a missing key. *)
Definition dict_get (ud : gmap string value) (k : string) : value :=
  default (VAttr None) (ud !! k).

(** [a or b] on profile values. *)
Definition value_or (a b : value) : value :=
  if truthy a then a else b.

Definition name_keys : list string :=
  [ "name_prefix"; "first_name"; "middle_name"; "last_name"; "name_suffix" ].

Definition pcard_map : gmap string string :=
  list_to_map [
    ("first_name", "givenName");
    ("middle_name", "middleName");
    ("last_name", "familyName");
    ("name_prefix", "honorificPrefix");
    ("name_suffix", "honorificSuffix")
  ].

(** The loop [for part in name_keys] of [extract_openid_data], on the
    pair of [name] and [full_name_vals]. *)
Fixpoint name_parts (attribs : AttribAccess) (parts : list string)
    (name : gmap string attr) (full_name_vals : list string)
    : result (gmap string attr * list string) :=
  match parts with
  | [] => Ok (name, full_name_vals)
  | part :: parts' =>
    let* val := get attribs part false in
    match val with
    | Some v =>
      if str_truthy v then
        match pcard_map !! part with
        | None => Raise (KeyError part)
        | Some k =>
          name_parts attribs parts' (<[k := Some v]> name)
                     (full_name_vals ++ [v])
        end
      else name_parts attribs parts' name full_name_vals
    | None => name_parts attribs parts' name full_name_vals
    end
  end.

(** The loop [for k in ['gender', 'birthday']: ud[k] = attribs.get(k)]. *)
Fixpoint copy_attrs (attribs : AttribAccess) (ks : list string)
    (ud : gmap string value) : result (gmap string value) :=
  match ks with
  | [] => Ok ud
  | k :: ks' =>
    let* v := get attribs k false in
    copy_attrs attribs ks' (<[k := VAttr v]> ud)
  end.

(** The loop [for k, v in ud.items(): if not v: del ud[k]], over the
    list of items taken before the loop starts. *)
Definition strip_empty (ud : gmap string value) : gmap string value :=
  foldl (λ ud' kv, if truthy kv.2 then ud' else delete kv.1 ud')
        ud (map_to_list ud).

(** [extract_openid_data(identifier, sreg_resp, ax_resp)]. *)
Definition extract_openid_data (identifier : string)
    (sreg_resp : option sreg_message) (ax_resp : option ax_message)
    : result (gmap string value) :=
  let attribs := AttribAccess_init sreg_resp ax_resp in
  let ud : gmap string value :=
    {[ "identifier" := VAttr (Some identifier) ]} in
  let ud :=
    if contains "google.com" identifier then
      <["providerName" := VAttr (Some "Google")]> ud
    else if contains "yahoo.com" identifier then
      <["providerName" := VAttr (Some "Yahoo")]> ud
    else
      <["providerName" := VAttr (Some "OpenID")]> ud in
  (* Sort out the display name and preferred username *)
  let* ud :=
    if item_is ud "providerName" "Google" then
      let* email := get attribs "email" false in
      let* g := email_local_part email in
      Ok (<["preferredUsername" := VAttr (Some g)]> ud)
    else
      let* nickname := get attribs "nickname" false in
      Ok (<["preferredUsername" := VAttr nickname]> ud) in
  (* We trust that Google and Yahoo both verify their email addresses *)
  let* ud :=
    if item_is ud "providerName" "Google"
       || item_is ud "providerName" "Yahoo" then
      let* email := get attribs "email" true in
      Ok (<["verifiedEmail" := VAttr email]> ud)
    else Ok ud in
  (* Parse through the name parts, assign the properly if present *)
  let* nf := name_parts attribs name_keys ∅ [] in
  let name := nf.1 in
  let full_name := strip (join " " nf.2) in
  let* full_name :=
    if negb (str_truthy full_name) then get attribs "full_name" false
    else Ok (Some full_name) in
  let name := <["formatted" := full_name]> name in
  let ud := <["name" := VDict name]> ud in
  let ud := <["displayName" :=
               value_or (VAttr full_name) (dict_get ud "preferredUsername")]> ud in
  let* urls := get attribs "web" false in
  let ud :=
    match urls with
    | Some u => if str_truthy u then <["urls" := VList [u]]> ud else ud
    | None => ud
    end in
  let* ud := copy_attrs attribs [ "gender"; "birthday" ] ud in
  (* Now strip out empty values *)
  Ok (strip_empty ud).

End Normalizer.

(* ================================================================== *)
(** * The OpenID consumer state machine                                *)
(* ================================================================== *)

(** The extension requests that [_update_authrequest] attaches. *)
Inductive extension : Type :=
| FetchRequest (attrs : list string)      (* ax.FetchRequest *)
| SRegRequest (optional : list string).   (* sreg.SRegRequest *)

(** The auth request that [Consumer.begin] returns, as far as the
    handlers look at it. *)
Record authrequest : Type := mkAuthRequest {
  shouldSendRedirect : bool;
  extensions : list extension
}.

(** The outcome of [Consumer(openid_session, store).begin(openid_url)]:
    it raises [DiscoveryFailure], or fills [openid_session] and returns an
    auth request or [None]. *)
Inductive begin_outcome : Type :=
| DiscoveryFailure
| Begun (openid_session : gmap string string) (a : option authrequest).

(** [info.status] of the response that [Consumer.complete] returns. *)
Inductive status : Type := SUCCESS | FAILURE | CANCEL | SETUP_NEEDED.

(** The response object of [Consumer.complete], with the two attribute
    responses that [fromSuccessResponse] reads off it and the arguments
    of its OAuth extension. *)
Record info : Type := mkInfo {
  info_status : status;
  identity_url : string;
  canonicalID : attr;
  info_sreg : option sreg_message;
  info_ax : option ax_message;
  info_oauth : gmap string string
}.

(** The envelope stored under the minted token: [status], [profile] and,
    when an access token was obtained, [credentials]. *)
Record result_data : Type := mkResultData {
  rd_status : string;
  rd_profile : gmap string value;
  rd_credentials : option string
}.

(** What the keyed store holds: the protocol state of an attempt (the
    dict [openid_session]) or a result envelope. *)
Inductive stored : Type :=
| Attempt (openid_session : gmap string string)
| ResultData (r : result_data).

(** Truthiness of what [storage.retrieve] hands back: [None] and the
    empty dict are false; a result envelope always has its ['status']. *)
Definition stored_truthy (o : option stored) : bool :=
  match o with
  | None => false
  | Some (Attempt d) => negb (bool_decide (d = ∅))
  | Some (ResultData _) => true
  end.

(** The calls made on the storage collaborator, in order. *)
Inductive storage_call : Type :=
| CallStore (key : string) (v : stored) (expires : Z)
| CallRetrieve (key : string)
| CallDelete (key : string).

(** The caller's session [req.session]: its id and its items. *)
Record session : Type := mkSession {
  session_id : string;
  session_items : gmap string string
}.

(** The state the handlers act on: the keyed store with the log of the
    calls made on it, the caller's session, and the number of tokens
    generated so far. *)
Record world : Type := mkWorld {
  storage : gmap string stored;
  calls : list storage_call;
  req_session : session;
  minted : nat
}.

(** Modelled from the spec: the keyed storage collaborator
    ([self.storage], outside this module), section 6:
    [store(key, value, expires_in_seconds)], [retrieve(key) -> value|absent],
    [delete(key)].  Expiry only ever removes a record; the calls below
    are taken inside the expiry window. *)
Definition storage_store (key : string) (v : stored) (expires : Z)
    (w : world) : world :=
  {| storage := <[key := v]> (storage w);
     calls := calls w ++ [CallStore key v expires];
     req_session := req_session w;
     minted := minted w |}.

(** Modelled from the spec: [retrieve(key) -> value|absent] of the keyed
    storage collaborator. *)
Definition storage_retrieve (key : string) (w : world)
    : option stored * world :=
  (storage w !! key,
   {| storage := storage w;
      calls := calls w ++ [CallRetrieve key];
      req_session := req_session w;
      minted := minted w |}).

(** Modelled from the spec: [delete(key)] of the keyed storage
    collaborator. *)
Definition storage_delete (key : string) (w : world) : world :=
  {| storage := delete key (storage w);
     calls := calls w ++ [CallDelete key];
     req_session := req_session w;
     minted := minted w |}.

(** [req.session[k] = v] followed by [req.session.save()]. *)
Definition session_set (k v : string) (w : world) : world :=
  {| storage := storage w;
     calls := calls w;
     req_session :=
       {| session_id := session_id (req_session w);
          session_items := <[k := v]> (session_items (req_session w)) |};
     minted := minted w |}.

(** The responses of the two handlers. *)
Inductive response : Type :=
| ErrorRedirect (code : Z) (end_point : string)
| HTTPFound (location : string)
| Body (html : string)
| TokenForm (end_point token : string).

(** The response of [self._error_redirect(code, end_point)].  The method
    belongs to [utils.RouteResponder], outside this module; its response
    is kept as the two arguments it is called with.  What the call does
    besides building the response (sections 3 and 6 of the specification
    have error paths deliver a failure envelope under a newly minted
    token) is the parameter [error_redirect_effect] of the handlers. *)
Definition _error_redirect (code : Z) (end_point : string) : response :=
  ErrorRedirect code end_point.

(** The request, as far as the handlers read it: [req.POST],
    [req.params] and [req.link('process', qualified=True)]. *)
Record request : Type := mkRequest {
  POST : gmap string string;
  params : gmap string string;
  link_process : string
}.

(** The configuration of [OpenIDResponder.__init__]. *)
Record OpenIDResponder : Type := mkResponder {
  realm : string;
  endpoint_regex : string
}.

(** [_lookup_identifier]: the default of the extension point. *)
Definition _lookup_identifier (req : request) (identifier : string)
    : string := identifier.

(** [_update_authrequest]: attach the attribute-exchange request for
    every URI of [ax_attributes] and the simple-registration request. *)
Definition _update_authrequest (req : request) (a : authrequest)
    : authrequest :=
  {| shouldSendRedirect := shouldSendRedirect a;
     extensions :=
       extensions a ++
       [ FetchRequest (map_to_list ax_attributes).*2;
         SRegRequest [ "nickname"; "email"; "fullname"; "dob"; "gender";
                       "postcode"; "country"; "language"; "timezone" ] ] |}.

(** [_get_access_token]: the default of the extension point. *)
Definition _get_access_token (request_token : string) : option string :=
  None.

(** The identity that [process] hands to the normalizer:
    [info.identity_url], replaced by [info.endpoint.canonicalID] when
    that is set (an i-name). *)
Definition openid_identity (i : info) : string :=
  if attr_truthy (canonicalID i) then
    default (identity_url i) (canonicalID i)
  else identity_url i.

Section Responder.

(** The keys of [sreg.data_fields]. *)
Variable data_fields : gset string.

(** [re.match(pattern, s)], as a truth value. *)
Variable re_match : string → string → bool.

(** [consumer.Consumer({}, self.openid_store).begin(openid_url)]. *)
Variable consumer_begin : string → begin_outcome.

(** [authrequest.redirectURL(realm, return_to, immediate=False)] and
    [authrequest.htmlMarkup(realm, return_to, immediate=False)]. *)
Variable redirectURL : authrequest → string → string → string.
Variable htmlMarkup : authrequest → string → string → string.

(** [consumer.Consumer(openid_session, self.openid_store)
      .complete(req.params, return_to)]. *)
Variable consumer_complete :
  option stored → gmap string string → string → info.

(** The [n]-th token that [utils.generate_token()] hands out. *)
Variable token_of : nat → string.

(** What [self._error_redirect(code, end_point)] does to the store, to
    the log of storage calls and to the token counter. *)
Variable error_redirect_effect : Z → string → world → world.

(** [utils.generate_token()]. *)
Definition generate_token (w : world) : string * world :=
  (token_of (minted w),
   {| storage := storage w;
      calls := calls w;
      req_session := req_session w;
      minted := S (minted w) |}).

(** [OpenIDResponder.login(req)]. *)
Definition login (self : OpenIDResponder) (req : request) (w : world)
    : result (response * world) :=
  (* Load default parameters that all Auth Responders take *)
  match POST req !! "end_point" with
  | None => Raise (KeyError "end_point")
  | Some end_point =>
    let openid_url := POST req !! "openid_identifier" in
    if negb (attr_truthy openid_url)
       || negb (re_match (endpoint_regex self) end_point) then
      Ok (_error_redirect 0 end_point, error_redirect_effect 0 end_point w)
    else
      (* Let inherited consumers alter the openid identifier if desired *)
      let openid_url := _lookup_identifier req (default "" openid_url) in
      match consumer_begin openid_url with
      | DiscoveryFailure =>
        Ok (_error_redirect 1 end_point, error_redirect_effect 1 end_point w)
      | Begun _ None =>
        Ok (_error_redirect 1 end_point, error_redirect_effect 1 end_point w)
      | Begun openid_session (Some authrequest) =>
        (* Update the authrequest *)
        let authrequest := _update_authrequest req authrequest in
        let return_to := link_process req in
        (* Ensure our session is saved for the id to persist *)
        let w := session_set "end_point" end_point w in
        let sid := session_id (req_session w) in
        if shouldSendRedirect authrequest then
          let redirect_url :=
            redirectURL authrequest (realm self) return_to in
          let w := storage_store sid (Attempt openid_session) 300 w in
          Ok (HTTPFound redirect_url, w)
        else
          let html := htmlMarkup authrequest (realm self) return_to in
          let w := storage_store sid (Attempt openid_session) 300 w in
          Ok (Body html, w)
      end
  end.

(** [OpenIDResponder.process(req)]. *)
Definition process (self : OpenIDResponder) (req : request) (w : world)
    : result (response * world) :=
  match session_items (req_session w) !! "end_point" with
  | None => Raise (KeyError "end_point")
  | Some end_point =>
    let sid := session_id (req_session w) in
    let '(openid_session, w) := storage_retrieve sid w in
    if negb (stored_truthy openid_session) then
      Ok (_error_redirect 1 end_point, error_redirect_effect 1 end_point w)
    else
      (* Setup the consumer and parse the information coming back *)
      let info :=
        consumer_complete openid_session (params req) (link_process req) in
      match info_status info with
      | FAILURE | CANCEL =>
        Ok (_error_redirect 2 end_point, error_redirect_effect 2 end_point w)
      | SUCCESS =>
        let openid_identity := openid_identity info in
        let* user_data :=
          extract_openid_data data_fields openid_identity
                              (info_sreg info) (info_ax info) in
        (* Did we get any OAuth info? *)
        let credentials :=
          match info_oauth info !! "request_token" with
          | Some request_token =>
            match _get_access_token request_token with
            | Some access_token =>
              if str_truthy access_token then Some access_token else None
            | None => None
            end
          | None => None
          end in
        let result_data :=
          {| rd_status := "ok";
             rd_profile := user_data;
             rd_credentials := credentials |} in
        (* Delete the temporary token data used for the OpenID auth *)
        let w := storage_delete sid w in
        (* Generate the token, store the extracted user-data for 5 mins,
           and send back *)
        let '(token, w) := generate_token w in
        let w := storage_store token (ResultData result_data) 300 w in
        match session_items (req_session w) !! "end_point" with
        | None => Raise (KeyError "end_point")
        | Some end_point' => Ok (TokenForm end_point' token, w)
        end
      | SETUP_NEEDED =>
        Ok (_error_redirect 1 end_point, error_redirect_effect 1 end_point w)
      end
  end.

End Responder.

(* ================================================================== *)
(** * Configuration                                                    *)
(* ================================================================== *)

(** The configuration that [parse_config] reads: the section ['OpenID']
    of string settings and the two store objects ['OpenID Store'] and
    ['UserStore'], each of them possibly missing. *)
Record config : Type := mkConfig {
  cfg_openid : option (gmap string string);
  cfg_openid_store : option string;
  cfg_user_store : option string
}.

(** A constructor parameter: a string setting or a store object. *)
Inductive param : Type :=
| PStr (s : string)
| PObj (o : string).

Definition key_map : gmap string string :=
  list_to_map [ ("Realm", "realm"); ("Endpoint Regex", "endpoint_regex") ].

(** [OpenIDResponder.parse_config(config)]. *)
Definition parse_config (cfg : config) : result (gmap string param) :=
  let params : gmap string param := ∅ in
  match cfg_openid cfg with
  | None => Raise (KeyError "OpenID")
  | Some oids_vals =>
    let params :=
      foldl (λ params kv,
               match oids_vals !! kv.1 with
               | Some x => <[kv.2 := PStr x]> params
               | None => params
               end)
            params (map_to_list key_map) in
    match cfg_openid_store cfg with
    | None => Raise (KeyError "OpenID Store")
    | Some openid_store =>
      let params := <["openid_store" := PObj openid_store]> params in
      match cfg_user_store cfg with
      | None => Raise (KeyError "UserStore")
      | Some user_store => Ok (<["storage" := PObj user_store]> params)
      end
    end
  end.

(* ================================================================== *)
(** * Definitions used to state the properties                         *)
(* ================================================================== *)

(** The provider rules as the specification words them: a prioritized
    list of (substring, provider name) rules, with ["OpenID"] when no
    rule applies. *)
Definition provider_rules : list (string * string) :=
  [ ("google.com", "Google"); ("yahoo.com", "Yahoo") ].

Definition infer_provider (identifier : string) : string :=
  match find (λ r : string * string, contains r.1 identifier)
             provider_rules with
  | Some r => r.2
  | None => "OpenID"
  end.

(** The values among [vs] that pass the test [if val:], in order. *)
Definition present_values (vs : list attr) : list string :=
  omap (λ a : attr, if attr_truthy a then a else None) vs.

(** What the final loop of [extract_openid_data] leaves of an item. *)
Definition keep (v : value) : option value :=
  if truthy v then Some v else None.

(** The item of a returned profile under key [k]; nothing when the call
    raised. *)
Definition profile_item (r : result (gmap string value)) (k : string)
    : option value :=
  match r with
  | Ok ud => ud !! k
  | Raise _ => None
  end.

(** The formatted full name as the specification words it: the present
    name parts joined by spaces, and the flat full name when no name part
    is present. *)
Definition spec_formatted (parts : list string) (full_name : attr) : attr :=
  match parts with
  | [] => full_name
  | _ :: _ => Some (join " " parts)
  end.

(** The display name as the specification words it: the formatted full
    name if non-empty, else the preferred username. *)
Definition spec_display_name (parts : list string) (full_name : attr)
    (preferred : attr) : attr :=
  attr_or (spec_formatted parts full_name) preferred.

(** Whether a call returned, and what it returned. *)
Definition is_ok {A : Type} (r : result A) : bool :=
  match r with
  | Ok _ => true
  | Raise _ => false
  end.

Definition unwrap {A : Type} (d : A) (r : result A) : A :=
  match r with
  | Ok a => a
  | Raise _ => d
  end.

(** The response of a handler call, and the world it leaves ([w] itself
    when the call raised). *)
Definition response_of (r : result (response * world)) : option response :=
  match r with
  | Ok (resp, _) => Some resp
  | Raise _ => None
  end.

Definition world_after (w : world) (r : result (response * world)) : world :=
  match r with
  | Ok (_, w') => w'
  | Raise _ => w
  end.

(** The numeric code that an error redirect carries. *)
Definition error_code (r : response) : option Z :=
  match r with
  | ErrorRedirect code _ => Some code
  | _ => None
  end.

(** The storage calls of a log that delete key [k]. *)
Definition is_delete (k : string) (c : storage_call) : bool :=
  match c with
  | CallDelete k' => bool_decide (k' = k)
  | _ => false
  end.

(** The relation between the inputs of [extract_openid_data], the values
    it reads, and the profile it returns. *)
Record normalized (data_fields : gset string) (attribs : AttribAccess)
    (identifier : string) (ud : gmap string value)
    (pu ve fn urls g b : attr) (vs : list attr) (nm : gmap string attr)
    : Prop := {
  n_username :
    if bool_decide (infer_provider identifier = "Google")
    then ∃ email s, get data_fields attribs "email" false = Ok email
                    ∧ email_local_part email = Ok s ∧ pu = Some s
    else get data_fields attribs "nickname" false = Ok pu;
  n_verified :
    if bool_decide (infer_provider identifier = "Google")
       || bool_decide (infer_provider identifier = "Yahoo")
    then get data_fields attribs "email" true = Ok ve
    else ve = None;
  n_parts :
    Forall2 (λ part v, get data_fields attribs part false = Ok v)
            name_keys vs;
  n_name : ∀ k a, nm !! k = Some a → attr_truthy a = true;
  n_full_name :
    let joined := strip (join " " (present_values vs)) in
    if str_truthy joined then fn = Some joined
    else get data_fields attribs "full_name" false = Ok fn;
  n_web : get data_fields attribs "web" false = Ok urls;
  n_gender : get data_fields attribs "gender" false = Ok g;
  n_birthday : get data_fields attribs "birthday" false = Ok b;
  n_ud_identifier : ud !! "identifier" = keep (VAttr (Some identifier));
  n_ud_provider :
    ud !! "providerName" = Some (VAttr (Some (infer_provider identifier)));
  n_ud_username : ud !! "preferredUsername" = keep (VAttr pu);
  n_ud_verified : ud !! "verifiedEmail" = keep (VAttr ve);
  n_ud_name : ud !! "name" = Some (VDict (<["formatted" := fn]> nm));
  n_ud_display :
    ud !! "displayName" = keep (value_or (VAttr fn) (VAttr pu));
  n_ud_urls :
    ud !! "urls"
    = if attr_truthy urls then Some (VList [default "" urls]) else None;
  n_ud_gender : ud !! "gender" = keep (VAttr g);
  n_ud_birthday : ud !! "birthday" = keep (VAttr b);
  n_ud_other :
    ∀ k, k ∉ [ "identifier"; "providerName"; "preferredUsername";
               "verifiedEmail"; "name"; "displayName"; "urls"; "gender";
               "birthday" ] → ud !! k = None
}.

(** An AX response that carries at most one value for every attribute:
    the responses on which [getSingle] does not raise. *)
Definition ax_single_valued (ax : ax_message) : Prop :=
  ∀ (uri : string) (vs : list string),
    ax !! uri = Some vs → (List.length vs ≤ 1)%nat.

(** The characters before the first ['@'] of an email address contain
    neither ['@'] nor a line feed. *)
Definition local_part_ok (local : string) : Prop :=
  ∀ c, c ∈ list_ascii_of_string local → c ≠ "@"%char ∧ c ≠ "010"%char.

(* ================================================================== *)
(** * Example collaborators                                            *)
(* ================================================================== *)

(** Stand-ins for the collaborators, used to run the handlers on
    concrete requests. *)
Module Example.

Definition responder : OpenIDResponder :=
  {| realm := "https://broker.example/";
     endpoint_regex := "https://app.example/" |}.

(** The pattern is taken as a literal prefix. *)
Definition re_match (pattern s : string) : bool := String.prefix pattern s.

(** Discovery fails for identifiers that mention ["unknown"]. *)
Definition consumer_begin (openid_url : string) : begin_outcome :=
  if contains "unknown" openid_url then DiscoveryFailure
  else Begun {[ "_openid_consumer_last_token" := openid_url ]}
             (Some {| shouldSendRedirect := true; extensions := [] |}).

Definition redirectURL (a : authrequest) (realm return_to : string)
    : string :=
  "https://example-provider/auth?return_to=" ++ return_to.

Definition htmlMarkup (a : authrequest) (realm return_to : string)
    : string :=
  "<form action='https://example-provider/auth'></form>".

Definition alice_sreg : sreg_message :=
  {[ "email" := "alice@example.com"; "nickname" := "alice" ]}.

Definition info_of (s : status) : info :=
  {| info_status := s;
     identity_url := "https://example-provider/alice";
     canonicalID := None;
     info_sreg := Some alice_sreg;
     info_ax := None;
     info_oauth := ∅ |}.

(** The handshake is cancelled, succeeds or fails according to the
    request parameter [openid.mode]. *)
Definition consumer_complete (openid_session : option stored)
    (params : gmap string string) (return_to : string) : info :=
  if bool_decide (params !! "openid.mode" = Some "cancel") then
    info_of CANCEL
  else if bool_decide (params !! "openid.mode" = Some "id_res") then
    info_of SUCCESS
  else info_of FAILURE.

Fixpoint token_of (n : nat) : string :=
  match n with
  | O => "token"
  | S n' => "x" ++ token_of n'
  end.

(** An error redirect that mints a token and stores a failure envelope
    under it. *)
Definition error_redirect_effect (code : Z) (end_point : string)
    (w : world) : world :=
  let '(token, w) := generate_token token_of w in
  storage_store token
    (ResultData {| rd_status := "failed"; rd_profile := ∅;
                   rd_credentials := None |})
    300 w.

Definition login_request (end_point openid_identifier : string) : request :=
  {| POST := {[ "end_point" := end_point;
                "openid_identifier" := openid_identifier ]};
     params := ∅;
     link_process := "https://broker.example/process" |}.

Definition process_request (mode : string) : request :=
  {| POST := ∅;
     params := {[ "openid.mode" := mode ]};
     link_process := "https://broker.example/process" |}.

(** A world with no record in the store and an empty session. *)
Definition idle : world :=
  {| storage := ∅;
     calls := [];
     req_session := {| session_id := "session-1"; session_items := ∅ |};
     minted := 0 |}.

(** A world in which an attempt is pending for the session. *)
Definition pending : world :=
  {| storage :=
       {[ "session-1" :=
            Attempt {[ "_openid_consumer_last_token" :=
                         "https://example-provider/alice" ]} ]};
     calls := [];
     req_session :=
       {| session_id := "session-1";
          session_items := {[ "end_point" := "https://app.example/cb" ]} |};
     minted := 0 |}.

(** A world whose session has the end point but whose store is empty. *)
Definition expired : world :=
  {| storage := ∅;
     calls := [];
     req_session :=
       {| session_id := "session-1";
          session_items := {[ "end_point" := "https://app.example/cb" ]} |};
     minted := 0 |}.

Definition login' : request → world → result (response * world) :=
  login re_match consumer_begin redirectURL htmlMarkup
        error_redirect_effect responder.

Definition process' : request → world → result (response * world) :=
  process openid_sreg_data_fields consumer_complete token_of
          error_redirect_effect responder.

End Example.

(* ================================================================== *)
(** * Properties of the attribute normalizer                           *)
(* ================================================================== *)

(** Lookups in a chain of inserts with literal keys. *)
Ltac map_lk :=
  repeat first
    [ rewrite lookup_insert_eq
    | rewrite lookup_insert_ne by (discriminate || congruence)
    | rewrite lookup_singleton_eq
    | rewrite lookup_singleton_ne by (discriminate || congruence)
    | rewrite lookup_empty ].

Lemma strip_loop_lookup (l : list (string * value))
    (m : gmap string value) (k : string) :
  foldl (λ ud' kv, if truthy kv.2 then ud' else delete kv.1 ud') m l !! k
  = if existsb (λ kv, bool_decide (kv.1 = k) && negb (truthy kv.2)) l
    then None else m !! k.
Proof.
  revert m. induction l as [|[k0 v0] l IH]; intros m; simpl; [done|].
  rewrite IH. destruct (truthy v0); simpl.
  - by rewrite andb_false_r.
  - rewrite andb_true_r. case_bool_decide; simpl.
    + subst. rewrite lookup_delete_eq. by destruct (existsb _ _).
    + by rewrite lookup_delete_ne.
Qed.

(** The final loop keeps exactly the items whose value is true. *)
Lemma strip_empty_lookup (ud : gmap string value) (k : string) :
  strip_empty ud !! k
  = match ud !! k with
    | Some v => keep v
    | None => None
    end.
Proof.
  unfold strip_empty, keep. rewrite strip_loop_lookup.
  destruct (existsb _ _) eqn:E.
  - apply existsb_exists in E as [[k0 v0] [Hin E]]. simpl in E.
    apply andb_prop in E as [E1 E2]. apply bool_decide_eq_true in E1. subst.
    apply list_elem_of_In, elem_of_map_to_list in Hin. rewrite Hin.
    apply negb_true_iff in E2. by rewrite E2.
  - destruct (ud !! k) as [v|] eqn:Hk; [|done].
    destruct (truthy v) eqn:Hv; [done|].
    exfalso. apply not_true_iff_false in E. apply E.
    apply existsb_exists. exists (k, v). split.
    + by apply list_elem_of_In, elem_of_map_to_list.
    + simpl. rewrite Hv. by rewrite bool_decide_eq_true_2.
Qed.

Lemma infer_provider_if (identifier : string) :
  infer_provider identifier
  = if contains "google.com" identifier then "Google"
    else if contains "yahoo.com" identifier then "Yahoo"
    else "OpenID".
Proof.
  unfold infer_provider, provider_rules. cbn [find fst snd].
  by destruct (contains "google.com" identifier),
              (contains "yahoo.com" identifier).
Qed.

Lemma infer_provider_cases (identifier : string) :
  infer_provider identifier = "Google"
  ∨ infer_provider identifier = "Yahoo"
  ∨ infer_provider identifier = "OpenID".
Proof.
  rewrite infer_provider_if.
  destruct (contains "google.com" identifier); [by left|].
  destruct (contains "yahoo.com" identifier); [by right; left|].
  by right; right.
Qed.

Lemma item_is_provider (p s : string) (m : gmap string value) :
  item_is (<["providerName" := VAttr (Some p)]> m) "providerName" s
  = bool_decide (p = s).
Proof. unfold item_is. by rewrite lookup_insert_eq. Qed.

Lemma item_is_other (k k' s : string) (v : value) (m : gmap string value) :
  k' ≠ k → item_is (<[k' := v]> m) k s = item_is m k s.
Proof. intros. unfold item_is. by rewrite lookup_insert_ne. Qed.

Lemma first_step (identifier : string) :
  (if contains "google.com" identifier then
      <["providerName" := VAttr (Some "Google")]>
        ({[ "identifier" := VAttr (Some identifier) ]} : gmap string value)
    else if contains "yahoo.com" identifier then
      <["providerName" := VAttr (Some "Yahoo")]>
        {[ "identifier" := VAttr (Some identifier) ]}
    else
      <["providerName" := VAttr (Some "OpenID")]>
        {[ "identifier" := VAttr (Some identifier) ]})
  = <["providerName" := VAttr (Some (infer_provider identifier))]>
      {[ "identifier" := VAttr (Some identifier) ]}.
Proof.
  rewrite infer_provider_if.
  by destruct (contains "google.com" identifier),
              (contains "yahoo.com" identifier).
Qed.

Lemma value_or_attr (a b : attr) :
  value_or (VAttr a) (VAttr b) = VAttr (attr_or a b).
Proof. unfold value_or, attr_or. cbn [truthy]. by destruct (attr_truthy a). Qed.

Lemma keep_attr_Some (a : attr) (v : value) :
  keep (VAttr a) = Some v →
  ∃ s, a = Some s ∧ s ≠ "" ∧ v = VAttr (Some s).
Proof.
  unfold keep. cbn [truthy]. destruct a as [[|c s]|]; cbn; try done.
  intros [= <-]. eauto.
Qed.

Section NormalizerProperties.

Variable data_fields : gset string.

Local Abbreviation get' := (get data_fields).

(** The loop over the name parts reads the five attributes in order,
    collects the present values, and puts only present values into
    [name]. *)
Lemma name_parts_spec attribs parts (nm : gmap string attr) vals nm' vals' :
  name_parts data_fields attribs parts nm vals = Ok (nm', vals') →
  ∃ vs, Forall2 (λ part v, get' attribs part false = Ok v) parts vs
        ∧ vals' = (vals ++ present_values vs)%list
        ∧ (∀ k a, nm' !! k = Some a → nm !! k = Some a ∨ attr_truthy a = true).
Proof.
  revert nm vals.
  induction parts as [|part parts IH]; intros nm vals H; simpl in H.
  - injection H as <- <-. exists []. split; [constructor|].
    split; [by rewrite app_nil_r|auto].
  - destruct (get' attribs part false) as [val|] eqn:Hget; simpl in H; [|done].
    assert (Hskip : attr_truthy val = false →
      name_parts data_fields attribs parts nm vals = Ok (nm', vals') →
      ∃ vs, Forall2 (λ part v, get' attribs part false = Ok v)
                    (part :: parts) vs
        ∧ vals' = (vals ++ present_values vs)%list
        ∧ (∀ k a, nm' !! k = Some a →
                  nm !! k = Some a ∨ attr_truthy a = true)).
    { intros Hf H'. apply IH in H' as (vs & Hvs & -> & Hnm).
      exists (val :: vs). split; [by constructor|]. split; [|done].
      unfold present_values. simpl. by rewrite Hf. }
    destruct val as [v|]; [|by apply Hskip].
    destruct (str_truthy v) eqn:Hv; [|by apply Hskip].
    destruct (pcard_map !! part) as [k|]; [|done].
    apply IH in H as (vs & Hvs & -> & Hnm).
    exists (Some v :: vs). split; [by constructor|]. split.
    + unfold present_values. simpl. rewrite Hv. simpl.
      by rewrite <- app_assoc.
    + intros k' a Hk'. apply Hnm in Hk' as [Hk'|]; [|by right].
      destruct (decide (k = k')) as [->|Hne].
      * rewrite lookup_insert_eq in Hk'. injection Hk' as <-. by right.
      * rewrite lookup_insert_ne in Hk'; auto.
Qed.

(** Whenever [extract_openid_data] returns, its result is described by
    [normalized]. *)
Lemma extract_openid_data_inv identifier sreg ax ud :
  extract_openid_data data_fields identifier sreg ax = Ok ud →
  ∃ pu ve fn urls g b vs nm,
    normalized data_fields (AttribAccess_init sreg ax) identifier ud
               pu ve fn urls g b vs nm.
Proof.
  unfold extract_openid_data. rewrite first_step.
  set (attribs := AttribAccess_init sreg ax).
  set (p := infer_provider identifier).
  intros H. rewrite item_is_provider in H.
  match type of H with bind _ ?k = _ => set (K := k) in H end.
  assert (∃ pu,
    (if bool_decide (p = "Google")
     then ∃ email s, get' attribs "email" false = Ok email
                     ∧ email_local_part email = Ok s ∧ pu = Some s
     else get' attribs "nickname" false = Ok pu)
    ∧ K (<["preferredUsername" := VAttr pu]>
           (<["providerName" := VAttr (Some p)]>
              {[ "identifier" := VAttr (Some identifier) ]})) = Ok ud)
    as (pu & Hpu & H1).
  { destruct (bool_decide (p = "Google")).
    - destruct (get' attribs "email" false) as [email|] eqn:He;
        cbn [bind] in H; [|discriminate].
      destruct (email_local_part email) as [s|] eqn:Hs;
        cbn [bind] in H; [|discriminate].
      exists (Some s). eauto 6.
    - destruct (get' attribs "nickname" false) as [nick|] eqn:He;
        cbn [bind] in H; [|discriminate].
      eauto. }
  clear H. subst K. cbv beta in H1.
  repeat first [ rewrite item_is_provider in H1
               | rewrite item_is_other in H1 by discriminate ].
  match type of H1 with bind _ ?k = _ => set (K := k) in H1 end.
  assert (∃ ve ud1,
    (if bool_decide (p = "Google") || bool_decide (p = "Yahoo")
     then get' attribs "email" true = Ok ve else ve = None)
    ∧ K ud1 = Ok ud
    ∧ ud1 !! "identifier" = Some (VAttr (Some identifier))
    ∧ ud1 !! "providerName" = Some (VAttr (Some p))
    ∧ ud1 !! "preferredUsername" = Some (VAttr pu)
    ∧ ud1 !! "verifiedEmail"
      = (if bool_decide (p = "Google") || bool_decide (p = "Yahoo")
         then Some (VAttr ve) else None)
    ∧ (∀ k, k ∉ [ "identifier"; "providerName"; "preferredUsername";
                  "verifiedEmail" ] → ud1 !! k = None))
    as (ve & ud1 & Hve & H2 & Hid & Hp & Hu & Hv & Hother).
  { destruct (bool_decide (p = "Google") || bool_decide (p = "Yahoo")).
    - destruct (get' attribs "email" true) as [ve|] eqn:He;
        cbn [bind] in H1; [|discriminate].
      exists ve. eexists. split; [reflexivity|]. split; [exact H1|].
      map_lk. repeat split.
      intros k Hk. rewrite !not_elem_of_cons in Hk.
      destruct Hk as (? & ? & ? & ? & _). by map_lk.
    - cbn [bind] in H1. exists None. eexists. split; [reflexivity|].
      split; [exact H1|].
      map_lk. repeat split.
      intros k Hk. rewrite !not_elem_of_cons in Hk.
      destruct Hk as (? & ? & ? & ? & _). by map_lk. }
  clear H1. subst K. cbv beta in H2.
  destruct (name_parts data_fields attribs name_keys ∅ []) as [[nm vals]|]
    eqn:Hparts; cbn [bind fst snd] in H2; [|discriminate].
  apply name_parts_spec in Hparts as (vs & Hvs & Hvals & Hnm).
  rewrite app_nil_l in Hvals. subst vals.
  assert (∃ fn,
    (if str_truthy (strip (join " " (present_values vs)))
     then fn = Some (strip (join " " (present_values vs)))
     else get' attribs "full_name" false = Ok fn)
    ∧ bind (Ok fn) ltac:(match type of H2 with bind _ ?k = _ => exact k end)
      = Ok ud) as (fn & Hfn & H3).
  { destruct (str_truthy (strip (join " " (present_values vs))));
      cbn [negb] in H2.
    - eauto.
    - destruct (get' attribs "full_name" false) as [fn|]; [|discriminate].
      eauto. }
  clear H2. cbn [bind] in H3.
  unfold dict_get in H3. rewrite lookup_insert_ne, Hu in H3 by discriminate.
  cbn [default] in H3.
  destruct (get' attribs "web" false) as [urls|] eqn:Hweb; cbn [bind] in H3;
    [|discriminate].
  cbn [copy_attrs] in H3.
  destruct (get' attribs "gender" false) as [g|] eqn:Hg; cbn [bind] in H3;
    [|discriminate].
  destruct (get' attribs "birthday" false) as [b|] eqn:Hb; cbn [bind] in H3;
    [|discriminate].
  injection H3 as <-.
  exists pu, ve, fn, urls, g, b, vs, nm.
  assert (Hcase : ∃ ud2 : gmap string value,
    match urls with
    | Some u =>
      if str_truthy u
      then <["urls":=VList [u]]>
             (<["displayName":=value_or (VAttr fn) (VAttr pu)]>
                (<["name":=VDict (<["formatted":=fn]> nm)]> ud1))
      else <["displayName":=value_or (VAttr fn) (VAttr pu)]>
             (<["name":=VDict (<["formatted":=fn]> nm)]> ud1)
    | None => <["displayName":=value_or (VAttr fn) (VAttr pu)]>
                (<["name":=VDict (<["formatted":=fn]> nm)]> ud1)
    end = ud2
    ∧ ud2 !! "urls"
      = (if attr_truthy urls then Some (VList [default "" urls]) else None)
    ∧ ∀ k, k ≠ "urls" →
        ud2 !! k = (<["displayName":=value_or (VAttr fn) (VAttr pu)]>
                     (<["name":=VDict (<["formatted":=fn]> nm)]> ud1)) !! k).
  { assert (Hno : ud1 !! "urls" = None).
    { apply Hother. rewrite !not_elem_of_cons. repeat split; try discriminate.
      apply not_elem_of_nil. }
    destruct urls as [u|]; cbn [attr_truthy default];
      [destruct (str_truthy u)|];
      eexists; (split; [reflexivity|]); split; map_lk; try exact Hno;
      try reflexivity.
    intros k Hk. by map_lk. }
  destruct Hcase as (ud2 & -> & Hurls & Hrest).
  assert (Hlk : ∀ k, k ≠ "urls" → k ≠ "gender" → k ≠ "birthday" →
    strip_empty (<["birthday":=VAttr b]> (<["gender":=VAttr g]> ud2)) !! k
    = match (<["displayName":=value_or (VAttr fn) (VAttr pu)]>
              (<["name":=VDict (<["formatted":=fn]> nm)]> ud1)) !! k with
      | Some v => keep v
      | None => None
      end).
  { intros k ? ? ?. rewrite strip_empty_lookup. map_lk.
    by rewrite Hrest. }
  split.
  - exact Hpu.
  - exact Hve.
  - exact Hvs.
  - intros k a Hk. destruct (Hnm k a Hk) as [Hk'|]; [|done].
    by rewrite lookup_empty in Hk'.
  - exact Hfn.
  - exact Hweb.
  - exact Hg.
  - exact Hb.
  - rewrite Hlk by discriminate. map_lk. by rewrite Hid.
  - rewrite Hlk by discriminate. map_lk. rewrite Hp. unfold keep.
    subst p.
    by destruct (infer_provider_cases identifier) as [Hq | [Hq | Hq]];
      rewrite Hq.
  - rewrite Hlk by discriminate. map_lk. by rewrite Hu.
  - rewrite Hlk by discriminate. map_lk. rewrite Hv.
    destruct (bool_decide (p = "Google") || bool_decide (p = "Yahoo"));
      [done|by subst ve].
  - rewrite Hlk by discriminate. map_lk. unfold keep. cbn [truthy].
    rewrite bool_decide_eq_false_2; [done|apply insert_non_empty].
  - rewrite Hlk by discriminate. by map_lk.
  - rewrite strip_empty_lookup. map_lk. rewrite Hurls.
    destruct urls as [u|]; cbn [attr_truthy]; [|done].
    by destruct (str_truthy u).
  - rewrite strip_empty_lookup. by map_lk.
  - rewrite strip_empty_lookup. by map_lk.
  - intros k Hk. rewrite !not_elem_of_cons in Hk.
    destruct Hk as (? & ? & ? & ? & ? & ? & ? & ? & ? & _).
    rewrite Hlk by done. map_lk. rewrite Hother; [done|].
    rewrite !not_elem_of_cons. repeat split; try done. apply not_elem_of_nil.
Qed.

(** [AttribAccess.get] on a key of [ax_attributes] whose probe of the AX
    response returns [a]. *)
Lemma get_unfold self key uri a ax_only :
  ax_attributes !! key = Some uri →
  getSingle (ax_resp self) uri = Ok a →
  get' self key ax_only
  = if attr_truthy a then Ok a
    else if ax_only then Ok None
    else if bool_decide (sreg_key key ∈ data_fields)
         then Ok (sreg_resp self !! sreg_key key)
         else Ok None.
Proof.
  intros Hk Ha. unfold get. rewrite Hk, Ha. cbn [bind].
  destruct (attr_truthy a); [done|]. destruct ax_only; [done|].
  by case_bool_decide.
Qed.

Lemma get_inv self key ax_only v :
  get' self key ax_only = Ok v →
  ∃ uri a, ax_attributes !! key = Some uri
           ∧ getSingle (ax_resp self) uri = Ok a.
Proof.
  unfold get. destruct (ax_attributes !! key) as [uri|]; [|done].
  destruct (getSingle (ax_resp self) uri) as [a|] eqn:Ha; cbn [bind];
    [|done].
  intros _. by exists uri, a.
Qed.

Lemma sreg_key_other (k : string) :
  k ≠ "full_name" → k ≠ "birthday" → k ≠ "postal_code" → sreg_key k = k.
Proof.
  intros ? ? ?. unfold sreg_key, trans_dict.
  rewrite (not_elem_of_list_to_map_1 _ k); [done|].
  cbn [fmap list_fmap fst]. rewrite !not_elem_of_cons.
  repeat split; try done. apply not_elem_of_nil.
Qed.

(** C5. Attribute lookup precedence: when the probe of the AX response
    yields a non-empty value, [AttribAccess.get] returns that value
    whatever the simple-registration response holds; the registration
    response can change the result only when the AX value is absent or
    empty and the field is not exchange-only. *)
Theorem ax_value_takes_precedence self key uri a ax_only :
  ax_attributes !! key = Some uri →
  getSingle (ax_resp self) uri = Ok a →
  (attr_truthy a = true →
     ∀ sreg', get' {| sreg_resp := sreg'; ax_resp := ax_resp self |}
                   key ax_only = Ok a)
  ∧ (∀ sreg', get' {| sreg_resp := sreg'; ax_resp := ax_resp self |}
                   key ax_only ≠ get' self key ax_only →
       attr_truthy a = false ∧ ax_only = false).
Proof.
  intros Hk Ha. split.
  - intros Ht sreg'. rewrite (get_unfold _ key uri a); [|done..].
    by rewrite Ht.
  - intros sreg' Hne.
    rewrite (get_unfold _ key uri a), (get_unfold self key uri a) in Hne;
      [|done..].
    destruct (attr_truthy a); [done|]. by destruct ax_only.
Qed.

(** C8. Simple-registration fallback: when the AX value is absent or
    empty and the field is not exchange-only, the logical name is
    translated through the rename table (full_name to fullname, birthday
    to dob, postal_code to postcode, every other name unchanged) and the
    registration value under the translated name is returned if that
    name is a recognized registration field; otherwise the result is
    [None]. *)
Theorem sreg_fallback_lookup self key uri a :
  ax_attributes !! key = Some uri →
  getSingle (ax_resp self) uri = Ok a →
  attr_truthy a = false →
  get' self key false
  = Ok (if bool_decide (sreg_key key ∈ data_fields)
        then sreg_resp self !! sreg_key key else None)
  ∧ sreg_key "full_name" = "fullname"
  ∧ sreg_key "birthday" = "dob"
  ∧ sreg_key "postal_code" = "postcode"
  ∧ (∀ k, k ≠ "full_name" → k ≠ "birthday" → k ≠ "postal_code" →
          sreg_key k = k).
Proof.
  intros Hk Ha Hf. split; [|repeat split; try by vm_compute].
  - rewrite (get_unfold self key uri a); [|done..]. rewrite Hf.
    by case_bool_decide.
  - apply sreg_key_other.
Qed.

(** C10. Whenever [extract_openid_data] returns, the profile contains
    the key 'providerName', and its value is one of "Google", "Yahoo"
    and "OpenID". *)
Theorem provider_name_always_present identifier sreg ax ud :
  extract_openid_data data_fields identifier sreg ax = Ok ud →
  ∃ p, ud !! "providerName" = Some (VAttr (Some p))
       ∧ (p = "Google" ∨ p = "Yahoo" ∨ p = "OpenID").
Proof.
  intros H. apply extract_openid_data_inv in H as (? & ? & ? & ? & ? & ? & ? & ? & N).
  exists (infer_provider identifier). split; [apply N|].
  apply infer_provider_cases.
Qed.

(** C6. Provider inference and verified email: the profile's
    providerName is "Google" if the identifier contains "google.com",
    else "Yahoo" if it contains "yahoo.com", else "OpenID"; a
    verifiedEmail is present only for Google and Yahoo, and then it is
    the non-empty value of the AX response, whatever the
    simple-registration response holds. *)
Theorem provider_inference identifier sreg ax ud :
  extract_openid_data data_fields identifier sreg ax = Ok ud →
  ud !! "providerName" = Some (VAttr (Some (infer_provider identifier)))
  ∧ infer_provider identifier
    = (if contains "google.com" identifier then "Google"
       else if contains "yahoo.com" identifier then "Yahoo"
       else "OpenID")
  ∧ (∀ v, ud !! "verifiedEmail" = Some v →
       (infer_provider identifier = "Google"
        ∨ infer_provider identifier = "Yahoo")
       ∧ ∃ uri e, ax_attributes !! "email" = Some uri
                  ∧ getSingle (default ∅ ax) uri = Ok (Some e)
                  ∧ e ≠ "" ∧ v = VAttr (Some e))
  ∧ (infer_provider identifier = "Google"
     ∨ infer_provider identifier = "Yahoo" →
     ∀ uri e, ax_attributes !! "email" = Some uri →
              getSingle (default ∅ ax) uri = Ok (Some e) → e ≠ "" →
              ud !! "verifiedEmail" = Some (VAttr (Some e))).
Proof.
  intros H.
  apply extract_openid_data_inv in H as (pu & ve & ? & ? & ? & ? & ? & ? & N).
  split; [apply N|]. split; [apply infer_provider_if|].
  pose proof (n_verified _ _ _ _ _ _ _ _ _ _ _ _ N) as Hve.
  pose proof (n_ud_verified _ _ _ _ _ _ _ _ _ _ _ _ N) as Hud.
  split.
  - intros v Hv. rewrite Hud in Hv.
    apply keep_attr_Some in Hv as (e & -> & Hne & ->).
    destruct (bool_decide (infer_provider identifier = "Google")) eqn:G;
      [|destruct (bool_decide (infer_provider identifier = "Yahoo")) eqn:Y];
      cbn [orb] in Hve; try discriminate.
    + apply bool_decide_eq_true in G. split; [by left|].
      destruct (get_inv _ _ _ _ Hve) as (uri & a & Hk & Ha).
      rewrite (get_unfold _ _ uri a) in Hve; [|done..].
      exists uri, e. destruct (attr_truthy a) eqn:Ht; [|discriminate].
      injection Hve as ->. done.
    + apply bool_decide_eq_true in Y. split; [by right|].
      destruct (get_inv _ _ _ _ Hve) as (uri & a & Hk & Ha).
      rewrite (get_unfold _ _ uri a) in Hve; [|done..].
      exists uri, e. destruct (attr_truthy a) eqn:Ht; [|discriminate].
      injection Hve as ->. done.
  - intros Hp uri e Hk Ha Hne.
    assert (Hc : bool_decide (infer_provider identifier = "Google")
                 || bool_decide (infer_provider identifier = "Yahoo") = true).
    { destruct Hp as [-> | ->]; by vm_compute. }
    rewrite Hc in Hve.
    rewrite (get_unfold _ _ uri (Some e)) in Hve; [|done..].
    destruct e; [done|]. cbn in Hve. injection Hve as <-.
    by rewrite Hud.
Qed.

(** C9, as amended. Display-name derivation: the formatted full name is
    the space-joined present name parts with surrounding whitespace
    stripped, or the flat full_name attribute when that stripped join is
    empty; displayName is the formatted full name if non-empty and
    otherwise the preferred username; given only a preferred username,
    displayName equals it. *)
Theorem display_name_derivation identifier sreg ax ud :
  extract_openid_data data_fields identifier sreg ax = Ok ud →
  ∃ vs fn pu,
    Forall2 (λ part v,
               get' (AttribAccess_init sreg ax) part false = Ok v)
            name_keys vs
    ∧ (if str_truthy (strip (join " " (present_values vs)))
       then fn = Some (strip (join " " (present_values vs)))
       else get' (AttribAccess_init sreg ax) "full_name" false = Ok fn)
    ∧ ud !! "preferredUsername" = keep (VAttr pu)
    ∧ ud !! "displayName" = keep (VAttr (attr_or fn pu))
    ∧ (attr_truthy fn = false →
       ud !! "displayName" = ud !! "preferredUsername").
Proof.
  intros H.
  apply extract_openid_data_inv in H as (pu & ve & fn & ? & ? & ? & vs & ? & N).
  exists vs, fn, pu.
  pose proof (n_ud_display _ _ _ _ _ _ _ _ _ _ _ _ N) as Hd.
  rewrite value_or_attr in Hd.
  split; [apply N|]. split; [apply N|]. split; [apply N|].
  split; [done|].
  intros Hf. rewrite Hd. unfold attr_or. rewrite Hf. symmetry. apply N.
Qed.

End NormalizerProperties.

Lemma is_ok_unwrap {A : Type} (d : A) (r : result A) :
  is_ok r = true → r = Ok (unwrap d r).
Proof. by destruct r. Qed.

Lemma ax_value_takes_precedence_witness :
  get openid_sreg_data_fields
      {| sreg_resp := {[ "nickname" := "sreg-nick" ]};
         ax_resp :=
           {[ "http://axschema.org/namePerson/friendly" := ["ax-nick"] ]} |}
      "nickname" false = Ok (Some "ax-nick").
Proof.
  refine (proj1 (ax_value_takes_precedence openid_sreg_data_fields
            {| sreg_resp := ∅;
               ax_resp :=
                 {[ "http://axschema.org/namePerson/friendly"
                      := ["ax-nick"] ]} |}
            "nickname" "http://axschema.org/namePerson/friendly"
            (Some "ax-nick") false _ _) _ _);
    vm_compute; reflexivity.
Defined.

Lemma sreg_fallback_lookup_witness :
  get openid_sreg_data_fields
      {| sreg_resp := {[ "fullname" := "Alice Liddell" ]}; ax_resp := ∅ |}
      "full_name" false
  = Ok (Some "Alice Liddell").
Proof.
  refine (eq_trans
            (proj1 (sreg_fallback_lookup openid_sreg_data_fields
                      {| sreg_resp := {[ "fullname" := "Alice Liddell" ]};
                         ax_resp := ∅ |}
                      "full_name" "http://axschema.org/namePerson" None
                      _ _ _)) _);
    vm_compute; reflexivity.
Defined.

Lemma provider_name_always_present_witness :
  ∃ ud,
    extract_openid_data openid_sreg_data_fields
      "https://example-provider/alice" (Some Example.alice_sreg) None = Ok ud
    ∧ ∃ p, ud !! "providerName" = Some (VAttr (Some p))
           ∧ (p = "Google" ∨ p = "Yahoo" ∨ p = "OpenID").
Proof.
  assert (H : extract_openid_data openid_sreg_data_fields
                "https://example-provider/alice" (Some Example.alice_sreg)
                None = Ok (unwrap ∅ _))
    by (apply is_ok_unwrap; vm_compute; reflexivity).
  eexists. split; [exact H|].
  exact (provider_name_always_present _ _ _ _ _ H).
Defined.

Lemma provider_inference_witness :
  ∃ ud,
    extract_openid_data openid_sreg_data_fields
      "https://me.yahoo.com/alice"
      (Some {[ "email" := "sreg@example.com" ]})
      (Some {[ "http://axschema.org/contact/email" := ["ax@yahoo.com"] ]})
    = Ok ud
    ∧ ud !! "providerName" = Some (VAttr (Some "Yahoo"))
    ∧ ud !! "verifiedEmail" = Some (VAttr (Some "ax@yahoo.com")).
Proof.
  assert (H : extract_openid_data openid_sreg_data_fields
                "https://me.yahoo.com/alice"
                (Some {[ "email" := "sreg@example.com" ]})
                (Some {[ "http://axschema.org/contact/email"
                           := ["ax@yahoo.com"] ]})
              = Ok (unwrap ∅ _))
    by (apply is_ok_unwrap; vm_compute; reflexivity).
  eexists. split; [exact H|].
  destruct (provider_inference _ _ _ _ _ H) as (Hp & _ & _ & Hv).
  split.
  - rewrite Hp. by vm_compute.
  - apply (Hv (or_intror eq_refl) "http://axschema.org/contact/email");
      by vm_compute.
Defined.

Lemma display_name_derivation_witness :
  ∃ ud,
    extract_openid_data openid_sreg_data_fields
      "https://example-provider/alice" (Some Example.alice_sreg) None = Ok ud
    ∧ ∃ vs fn pu,
        Forall2 (λ part v,
                   get openid_sreg_data_fields
                       (AttribAccess_init (Some Example.alice_sreg) None)
                       part false = Ok v)
                name_keys vs
        ∧ (if str_truthy (strip (join " " (present_values vs)))
           then fn = Some (strip (join " " (present_values vs)))
           else get openid_sreg_data_fields
                    (AttribAccess_init (Some Example.alice_sreg) None)
                    "full_name" false = Ok fn)
        ∧ ud !! "preferredUsername" = keep (VAttr pu)
        ∧ ud !! "displayName" = keep (VAttr (attr_or fn pu))
        ∧ (attr_truthy fn = false →
           ud !! "displayName" = ud !! "preferredUsername").
Proof.
  assert (H : extract_openid_data openid_sreg_data_fields
                "https://example-provider/alice" (Some Example.alice_sreg)
                None = Ok (unwrap ∅ _))
    by (apply is_ok_unwrap; vm_compute; reflexivity).
  eexists. split; [exact H|].
  exact (display_name_derivation _ _ _ _ _ H).
Defined.

(** C9, as stated, fails: with the single name part "Alice " (a trailing
    space) the space-joined name is "Alice " but displayName is "Alice". *)
Lemma display_name_not_space_joined :
  let r := extract_openid_data openid_sreg_data_fields
             "https://example-provider/bob" None
             (Some {[ "http://axschema.org/namePerson/first" := ["Alice "];
                      "http://axschema.org/namePerson/friendly" := ["bob"] ]})
  in
  profile_item r "displayName" = Some (VAttr (Some "Alice"))
  ∧ spec_display_name
      (present_values [None; Some "Alice "; None; None; None]) None
      (Some "bob") = Some "Alice "
  ∧ profile_item r "displayName"
    ≠ keep (VAttr (spec_display_name
                     (present_values [None; Some "Alice "; None; None; None])
                     None (Some "bob"))).
Proof. repeat split; by vm_compute. Qed.

(** C2 at its failing input: a Google identifier with no email attribute
    in either response makes [extract_openid_data] raise. *)
Theorem google_without_email_raises :
  extract_openid_data openid_sreg_data_fields
    "https://www.google.com/accounts/o8/id?id=AItOawk" None None
  = Raise TypeError.
Proof. by vm_compute. Qed.

(** C3 at its failing input: with no name data at all the profile still
    has the key 'name', whose 'formatted' item is [None]. *)
Theorem formatted_name_emitted_empty :
  profile_item
    (extract_openid_data openid_sreg_data_fields
       "https://example-provider/alice" (Some Example.alice_sreg) None)
    "name"
  = Some (VDict {[ "formatted" := None ]}).
Proof. by vm_compute. Qed.

(* ================================================================== *)
(** * Properties of the consumer state machine                         *)
(* ================================================================== *)

Section ResponderProperties.

Variable data_fields : gset string.
Variable re_match : string → string → bool.
Variable consumer_begin : string → begin_outcome.
Variable redirectURL : authrequest → string → string → string.
Variable htmlMarkup : authrequest → string → string → string.
Variable consumer_complete :
  option stored → gmap string string → string → info.
Variable token_of : nat → string.
Variable error_redirect_effect : Z → string → world → world.

Local Abbreviation login' :=
  (login re_match consumer_begin redirectURL htmlMarkup
         error_redirect_effect).
Local Abbreviation process' :=
  (process data_fields consumer_complete token_of error_redirect_effect).

(** [login] with an end point that the pattern rejects. *)
Lemma login_bad_end_point self req w end_point :
  POST req !! "end_point" = Some end_point →
  re_match (endpoint_regex self) end_point = false →
  login' self req w
  = Ok (ErrorRedirect 0 end_point, error_redirect_effect 0 end_point w).
Proof.
  intros Hep Hm. unfold login. rewrite Hep, Hm.
  by rewrite orb_true_r.
Qed.

(** [login] when discovery fails. *)
Lemma login_discovery_failure self req w end_point openid_url :
  POST req !! "end_point" = Some end_point →
  POST req !! "openid_identifier" = Some openid_url →
  openid_url ≠ "" →
  re_match (endpoint_regex self) end_point = true →
  consumer_begin openid_url = DiscoveryFailure →
  login' self req w
  = Ok (ErrorRedirect 1 end_point, error_redirect_effect 1 end_point w).
Proof.
  intros Hep Hurl Hne Hm Hb. unfold login. rewrite Hep, Hurl, Hm.
  destruct openid_url; [done|]. cbn.
  unfold _lookup_identifier. by rewrite Hb.
Qed.

(** [process] when no attempt record is found. *)
Lemma process_missing_attempt self req w end_point :
  session_items (req_session w) !! "end_point" = Some end_point →
  stored_truthy (storage w !! session_id (req_session w)) = false →
  process' self req w
  = Ok (ErrorRedirect 1 end_point,
        error_redirect_effect 1 end_point
          (storage_retrieve (session_id (req_session w)) w).2).
Proof.
  intros Hep Hs. unfold process. rewrite Hep.
  cbn [storage_retrieve]. by rewrite Hs.
Qed.

(** [process] when the handshake does not succeed: the world that the
    error redirect receives has the record still in the store and the
    retrieval as the only storage call. *)
Lemma process_not_success self req w end_point :
  session_items (req_session w) !! "end_point" = Some end_point →
  stored_truthy (storage w !! session_id (req_session w)) = true →
  info_status (consumer_complete (storage w !! session_id (req_session w))
                                 (params req) (link_process req))
  ≠ SUCCESS →
  let code :=
    match info_status
            (consumer_complete (storage w !! session_id (req_session w))
                               (params req) (link_process req)) with
    | FAILURE | CANCEL => 2%Z
    | _ => 1%Z
    end in
  process' self req w
  = Ok (ErrorRedirect code end_point,
        error_redirect_effect code end_point
          (storage_retrieve (session_id (req_session w)) w).2).
Proof.
  intros Hep Hs Hst code. subst code. unfold process. rewrite Hep.
  cbn [storage_retrieve]. rewrite Hs. cbn [negb].
  by destruct (info_status _).
Qed.

(** [process] on a successful handshake whose attributes normalize:
    the response, and the world it leaves. *)
Lemma process_success self req w end_point user_data :
  session_items (req_session w) !! "end_point" = Some end_point →
  stored_truthy (storage w !! session_id (req_session w)) = true →
  let sid := session_id (req_session w) in
  let i := consumer_complete (storage w !! sid) (params req)
                             (link_process req) in
  info_status i = SUCCESS →
  extract_openid_data data_fields (openid_identity i) (info_sreg i)
                      (info_ax i) = Ok user_data →
  let token := token_of (minted w) in
  let rd := {| rd_status := "ok"; rd_profile := user_data;
               rd_credentials := None |} in
  process' self req w
  = Ok (TokenForm end_point token,
        {| storage := <[token := ResultData rd]> (delete sid (storage w));
           calls := (calls w ++ [CallRetrieve sid; CallDelete sid;
                                 CallStore token (ResultData rd) 300])%list;
           req_session := req_session w;
           minted := S (minted w) |}).
Proof.
  intros Hep Hs sid i Hst Hex token rd. unfold process. rewrite Hep.
  cbn [storage_retrieve]. rewrite Hs. cbn [negb].
  fold sid. fold i. rewrite Hst, Hex. cbn [bind].
  assert (Hcred :
    match info_oauth i !! "request_token" with
    | Some request_token =>
      match _get_access_token request_token with
      | Some access_token =>
        if str_truthy access_token then Some access_token else None
      | None => None
      end
    | None => None
    end = None) by (by destruct (info_oauth i !! "request_token")).
  rewrite Hcred.
  cbn [generate_token storage_delete storage_store req_session
       session_items calls storage minted].
  rewrite Hep. fold token. fold rd.
  unfold storage_store. cbn [storage calls req_session minted].
  by rewrite <- !app_assoc.
Qed.


(** C4, as amended. Each of the four error categories is redirected to
    the caller's end point with a numeric code: (a) a disallowed callback
    URL at login carries 0, (b) a discovery failure at login carries 1,
    (c) a handshake failure or cancellation at process carries 2, and
    (d) a missing attempt record at process carries 1.  The codes
    separate (a), (c) and the pair (b), (d); (b) and (d) carry the same
    code. *)
Theorem error_codes_by_category self :
  (∀ req w end_point,
     POST req !! "end_point" = Some end_point →
     re_match (endpoint_regex self) end_point = false →
     response_of (login' self req w)
     = Some (_error_redirect 0 end_point))
  ∧ (∀ req w end_point openid_url,
       POST req !! "end_point" = Some end_point →
       POST req !! "openid_identifier" = Some openid_url →
       openid_url ≠ "" →
       re_match (endpoint_regex self) end_point = true →
       consumer_begin openid_url = DiscoveryFailure →
       response_of (login' self req w)
       = Some (_error_redirect 1 end_point))
  ∧ (∀ req w end_point,
       session_items (req_session w) !! "end_point" = Some end_point →
       stored_truthy (storage w !! session_id (req_session w)) = true →
       info_status
         (consumer_complete (storage w !! session_id (req_session w))
                            (params req) (link_process req))
       ∈ [FAILURE; CANCEL] →
       response_of (process' self req w)
       = Some (_error_redirect 2 end_point))
  ∧ (∀ req w end_point,
       session_items (req_session w) !! "end_point" = Some end_point →
       stored_truthy (storage w !! session_id (req_session w)) = false →
       response_of (process' self req w)
       = Some (_error_redirect 1 end_point)).
Proof.
  repeat split.
  - intros req w ep ? ?. by rewrite (login_bad_end_point _ _ _ ep).
  - intros req w ep url ? ? ? ? ?.
    by rewrite (login_discovery_failure _ _ _ ep url).
  - intros req w ep Hep Hs Hst.
    rewrite (process_not_success _ _ _ ep); [|done|done|].
    + cbn [response_of]. rewrite !elem_of_cons in Hst.
      destruct Hst as [-> | [-> | Hst]]; [done|done|].
      by apply elem_of_nil in Hst.
    + intros E. rewrite E in Hst. rewrite !elem_of_cons in Hst.
      destruct Hst as [? | [? | Hst]]; [done|done|].
      by apply elem_of_nil in Hst.
  - intros req w ep ? ?. by rewrite (process_missing_attempt _ _ _ ep).
Qed.

End ResponderProperties.



Lemma error_codes_by_category_witness :
  response_of (Example.login'
                 (Example.login_request "https://evil.example/cb"
                                        "https://example-provider/alice")
                 Example.idle)
  = Some (ErrorRedirect 0 "https://evil.example/cb")
  ∧ response_of (Example.login'
                   (Example.login_request "https://app.example/cb"
                                          "https://unknown.example/alice")
                   Example.idle)
    = Some (ErrorRedirect 1 "https://app.example/cb")
  ∧ response_of (Example.process' (Example.process_request "cancel")
                                  Example.pending)
    = Some (ErrorRedirect 2 "https://app.example/cb")
  ∧ response_of (Example.process' (Example.process_request "id_res")
                                  Example.expired)
    = Some (ErrorRedirect 1 "https://app.example/cb").
Proof.
  destruct (error_codes_by_category
              openid_sreg_data_fields Example.re_match
              Example.consumer_begin Example.redirectURL Example.htmlMarkup
              Example.consumer_complete Example.token_of
              Example.error_redirect_effect Example.responder)
    as (Ha & Hb & Hc & Hd).
  split; [|split; [|split]].
  - apply Ha; by vm_compute.
  - apply (Hb _ _ _ "https://unknown.example/alice"); by vm_compute.
  - apply Hc; [by vm_compute..|].
    change (CANCEL ∈ [FAILURE; CANCEL]). rewrite !elem_of_cons. auto.
  - apply Hd; by vm_compute.
Defined.

(** C4, as stated, fails: a discovery failure at login and a missing
    attempt record at process, two different categories, carry the same
    code 1. *)
Lemma discovery_and_missing_attempt_share_code :
  let discovery :=
    response_of (Example.login'
                   (Example.login_request "https://app.example/cb"
                                          "https://unknown.example/alice")
                   Example.idle) in
  let missing :=
    response_of (Example.process' (Example.process_request "id_res")
                                  Example.expired) in
  discovery ≫= error_code = Some 1%Z
  ∧ missing ≫= error_code = Some 1%Z
  ∧ discovery ≫= error_code = missing ≫= error_code.
Proof. repeat split; by vm_compute. Qed.

(** C1 at its failing input: on a cancelled handshake [process] calls
    [_error_redirect(2, end_point)] with the attempt record still in the
    store and the retrieval as its only storage call, whatever the error
    redirect then does; with the example error redirect the record is
    still stored afterwards, no delete was issued for it, and a second
    [process] call for the same session, on a successful handshake,
    hands out a token; the success path, from the same starting point,
    does delete the record. *)
Theorem failed_process_keeps_attempt :
  (∀ effect : Z → string → world → world,
     process openid_sreg_data_fields Example.consumer_complete
             Example.token_of effect Example.responder
             (Example.process_request "cancel") Example.pending
     = Ok (ErrorRedirect 2 "https://app.example/cb",
           effect 2%Z "https://app.example/cb"
             {| storage := storage Example.pending;
                calls := [CallRetrieve "session-1"];
                req_session := req_session Example.pending;
                minted := 0 |}))
  ∧ (let r1 := Example.process' (Example.process_request "cancel")
                                Example.pending in
     let w1 := world_after Example.pending r1 in
     let r2 := Example.process' (Example.process_request "id_res") w1 in
     let r := Example.process' (Example.process_request "id_res")
                               Example.pending in
     response_of r1 = Some (ErrorRedirect 2 "https://app.example/cb")
     ∧ storage w1 !! "session-1" = storage Example.pending !! "session-1"
     ∧ stored_truthy (storage w1 !! "session-1") = true
     ∧ filter (λ c, is_delete "session-1" c = true) (calls w1) = []
     ∧ response_of r2 = Some (TokenForm "https://app.example/cb" "xtoken")
     ∧ storage (world_after Example.pending r) !! "session-1" = None).
Proof.
  split.
  - intros effect.
    rewrite (process_not_success
               openid_sreg_data_fields Example.consumer_complete
               Example.token_of effect Example.responder
               (Example.process_request "cancel") Example.pending
               "https://app.example/cb"); by vm_compute.
  - repeat split; by vm_compute.
Qed.

(* ================================================================== *)
(** * Further properties of the attribute normalizer                   *)
(* ================================================================== *)

(** Membership in a literal list. *)
Ltac in_list :=
  repeat first [ apply list_elem_of_here | apply list_elem_of_further ].

Lemma getSingle_single_valued (ax : ax_message) (uri : string) :
  ax_single_valued ax → ∃ a, getSingle ax uri = Ok a.
Proof.
  intros Hsv. unfold getSingle.
  destruct (ax !! uri) as [[|v [|v' vs]]|] eqn:E; eauto.
  apply Hsv in E. cbn in E. lia.
Qed.

Lemma match_local_part_cons (c : ascii) (s : string) :
  match_local_part (String c s)
  = if Ascii.eqb c "@" then Some EmptyString
    else if Ascii.eqb c "010" then None
    else String c <$> match_local_part s.
Proof. reflexivity. Qed.

Lemma match_local_part_app (local rest : string) :
  local_part_ok local →
  match_local_part (local ++ String "@" rest) = Some local.
Proof.
  induction local as [|c local IH]; intros Hok.
  - reflexivity.
  - change (String c local ++ String "@" rest)
      with (String c (local ++ String "@" rest)).
    rewrite match_local_part_cons.
    destruct (Hok c) as [Hat Hlf]; [cbn; apply list_elem_of_here|].
    rewrite (proj2 (Ascii.eqb_neq _ _) Hat), (proj2 (Ascii.eqb_neq _ _) Hlf).
    rewrite IH; [done|].
    intros c' Hc'. apply Hok. cbn. by apply list_elem_of_further.
Qed.

Section NormalizerExtras.

Variable data_fields : gset string.

Local Abbreviation get' := (get data_fields).

Lemma get_total self key ax_only :
  is_Some (ax_attributes !! key) →
  ax_single_valued (ax_resp self) →
  ∃ v, get' self key ax_only = Ok v.
Proof.
  intros [uri Hk] Hsv.
  destruct (getSingle_single_valued _ uri Hsv) as [a Ha].
  rewrite (get_unfold _ _ _ uri a) by done.
  destruct (attr_truthy a); [eauto|]. destruct ax_only; [eauto|].
  case_bool_decide; eauto.
Qed.

Lemma name_parts_total attribs parts nm vals :
  ax_single_valued (ax_resp attribs) →
  Forall (λ part, is_Some (ax_attributes !! part)
                  ∧ is_Some (pcard_map !! part)) parts →
  ∃ r, name_parts data_fields attribs parts nm vals = Ok r.
Proof.
  intros Hsv Hparts. revert nm vals.
  induction Hparts as [|part parts [Hax [k Hk]] _ IH]; intros nm vals;
    cbn [name_parts].
  - eauto.
  - destruct (get_total attribs part false Hax Hsv) as [v Hv].
    rewrite Hv. cbn [bind].
    destruct v as [v|]; [destruct (str_truthy v)|]; rewrite ?Hk; apply IH.
Qed.

Lemma copy_attrs_total attribs ks ud :
  ax_single_valued (ax_resp attribs) →
  Forall (λ k, is_Some (ax_attributes !! k)) ks →
  ∃ ud', copy_attrs data_fields attribs ks ud = Ok ud'.
Proof.
  intros Hsv Hks. revert ud.
  induction Hks as [|k ks Hk _ IH]; intros ud; cbn [copy_attrs]; [eauto|].
  destruct (get_total attribs k false Hk Hsv) as [v Hv].
  rewrite Hv. cbn [bind]. apply IH.
Qed.

(** [extract_openid_data] returns whenever the AX response is
    single-valued and, for a Google identifier, the email has a local
    part. *)
Lemma extract_openid_data_returns identifier sreg ax :
  ax_single_valued (default ∅ ax) →
  (contains "google.com" identifier = true →
   ∃ email s, get' (AttribAccess_init sreg ax) "email" false = Ok email
              ∧ email_local_part email = Ok s) →
  ∃ ud, extract_openid_data data_fields identifier sreg ax = Ok ud.
Proof.
  intros Hsv Hgoogle. unfold extract_openid_data. rewrite first_step.
  set (attribs := AttribAccess_init sreg ax) in *.
  assert (Hsv' : ax_single_valued (ax_resp attribs)) by exact Hsv.
  rewrite item_is_provider.
  assert (Hkey : ∀ k, k ∈ [ "nickname"; "email"; "full_name"; "web";
                            "gender"; "birthday" ] →
                      is_Some (ax_attributes !! k)).
  { intros k Hk. rewrite !elem_of_cons in Hk.
    destruct Hk as [->|[->|[->|[->|[->|[->|Hk]]]]]];
      [by vm_compute; eauto..|by apply elem_of_nil in Hk]. }
  assert (∃ ud1,
    (if bool_decide (infer_provider identifier = "Google")
     then bind (get' attribs "email" false)
            (λ email, bind (email_local_part email)
               (λ g, Ok (<["preferredUsername" := VAttr (Some g)]>
                  (<["providerName" :=
                       VAttr (Some (infer_provider identifier))]>
                     ({[ "identifier" := VAttr (Some identifier) ]}
                        : gmap string value)))))
     else bind (get' attribs "nickname" false)
            (λ nickname, Ok (<["preferredUsername" := VAttr nickname]>
               (<["providerName" :=
                    VAttr (Some (infer_provider identifier))]>
                  {[ "identifier" := VAttr (Some identifier) ]}))))
    = Ok ud1) as [ud1 ->].
  { case_bool_decide as Hp.
    - destruct Hgoogle as (email & s & -> & Hs).
      + rewrite infer_provider_if in Hp.
        by destruct (contains "google.com" identifier),
                    (contains "yahoo.com" identifier).
      + cbn [bind]. rewrite Hs. cbn [bind]. eauto.
    - destruct (get_total attribs "nickname" false) as [v ->];
        [apply Hkey; in_list|done|]. cbn [bind]. eauto. }
  cbn [bind].
  assert (∃ ud2,
    (if item_is ud1 "providerName" "Google"
        || item_is ud1 "providerName" "Yahoo"
     then bind (get' attribs "email" true)
            (λ email, Ok (<["verifiedEmail" := VAttr email]> ud1))
     else Ok ud1) = Ok ud2) as [ud2 ->].
  { destruct (_ || _); [|eauto].
    destruct (get_total attribs "email" true) as [v ->];
      [apply Hkey; in_list|done|]. cbn [bind]. eauto. }
  cbn [bind].
  destruct (name_parts_total attribs name_keys ∅ [] Hsv') as [[nm vals] ->].
  { repeat constructor; by vm_compute; eauto. }
  cbn [bind fst snd].
  assert (∃ fn,
    (if negb (str_truthy (strip (join " " vals)))
     then get' attribs "full_name" false
     else Ok (Some (strip (join " " vals)))) = Ok fn) as [fn ->].
  { destruct (negb _); [|eauto].
    apply get_total; [apply Hkey; in_list|done]. }
  cbn [bind].
  destruct (get_total attribs "web" false) as [urls ->];
    [apply Hkey; in_list|done|]. cbn [bind].
  match goal with
  | |- ∃ ud, bind (copy_attrs _ _ ?ks ?m) _ = _ =>
    destruct (copy_attrs_total attribs ks m Hsv') as [ud' ->]
  end.
  { repeat constructor; apply Hkey; in_list. }
  cbn [bind]. eauto.
Qed.

End NormalizerExtras.

Lemma keep_Some (x v : value) :
  keep x = Some v → v = x ∧ truthy x = true.
Proof. unfold keep. destruct (truthy x); [|done]. by intros [= <-]. Qed.

Lemma no_at_no_match (s : string) :
  "@"%char ∉ list_ascii_of_string s → match_local_part s = None.
Proof.
  induction s as [|c s IH]; intros Hno; [done|].
  rewrite match_local_part_cons.
  cbn in Hno. rewrite not_elem_of_cons in Hno. destruct Hno as [Hc Hs].
  rewrite (proj2 (Ascii.eqb_neq c "@")) by congruence.
  destruct (Ascii.eqb c "010"); [done|]. by rewrite IH.
Qed.

Section NormalizerInvariants.

Variable data_fields : gset string.

Local Abbreviation get' := (get data_fields).

(** X1. Every item of a returned profile has a non-empty value: no
    top-level key maps to [None], [''], [{}] or [[]]. *)
Theorem profile_items_nonempty identifier sreg ax ud k v :
  extract_openid_data data_fields identifier sreg ax = Ok ud →
  ud !! k = Some v →
  truthy v = true.
Proof.
  intros H Hk.
  apply extract_openid_data_inv in H as (pu & ve & fn & urls & g & b & vs & nm & N).
  destruct (decide (k ∈ [ "identifier"; "providerName"; "preferredUsername";
                          "verifiedEmail"; "name"; "displayName"; "urls";
                          "gender"; "birthday" ])) as [Hin|Hout].
  - rewrite !elem_of_cons in Hin.
    destruct Hin as [->|[->|[->|[->|[->|[->|[->|[->|[->|Hin]]]]]]]]].
    + rewrite (n_ud_identifier _ _ _ _ _ _ _ _ _ _ _ _ N) in Hk.
      by apply keep_Some in Hk as [-> ?].
    + rewrite (n_ud_provider _ _ _ _ _ _ _ _ _ _ _ _ N) in Hk.
      injection Hk as <-.
      by destruct (infer_provider_cases identifier) as [Hq|[Hq|Hq]];
        rewrite Hq.
    + rewrite (n_ud_username _ _ _ _ _ _ _ _ _ _ _ _ N) in Hk.
      by apply keep_Some in Hk as [-> ?].
    + rewrite (n_ud_verified _ _ _ _ _ _ _ _ _ _ _ _ N) in Hk.
      by apply keep_Some in Hk as [-> ?].
    + rewrite (n_ud_name _ _ _ _ _ _ _ _ _ _ _ _ N) in Hk.
      injection Hk as <-. cbn [truthy].
      rewrite bool_decide_eq_false_2; [done|apply insert_non_empty].
    + rewrite (n_ud_display _ _ _ _ _ _ _ _ _ _ _ _ N) in Hk.
      by apply keep_Some in Hk as [-> ?].
    + rewrite (n_ud_urls _ _ _ _ _ _ _ _ _ _ _ _ N) in Hk.
      destruct (attr_truthy urls); [|done]. by injection Hk as <-.
    + rewrite (n_ud_gender _ _ _ _ _ _ _ _ _ _ _ _ N) in Hk.
      by apply keep_Some in Hk as [-> ?].
    + rewrite (n_ud_birthday _ _ _ _ _ _ _ _ _ _ _ _ N) in Hk.
      by apply keep_Some in Hk as [-> ?].
    + by apply elem_of_nil in Hin.
  - by rewrite (n_ud_other _ _ _ _ _ _ _ _ _ _ _ _ N k Hout) in Hk.
Qed.

(** X2. A returned profile always has the item 'name', a dict that
    always has the key 'formatted'; every other key of that dict has a
    non-empty string. *)
Theorem profile_name_parts_nonempty identifier sreg ax ud :
  extract_openid_data data_fields identifier sreg ax = Ok ud →
  ∃ nm, ud !! "name" = Some (VDict nm)
        ∧ is_Some (nm !! "formatted")
        ∧ ∀ k a, k ≠ "formatted" → nm !! k = Some a → attr_truthy a = true.
Proof.
  intros H.
  apply extract_openid_data_inv in H as (pu & ve & fn & urls & g & b & vs & nm & N).
  exists (<["formatted" := fn]> nm). split; [apply N|]. split.
  - rewrite lookup_insert_eq. eauto.
  - intros k a Hk Ha. rewrite lookup_insert_ne in Ha by done.
    by apply (n_name _ _ _ _ _ _ _ _ _ _ _ _ N k).
Qed.

(** X3. A returned profile has no key outside the nine profile fields. *)
Theorem profile_keys_bounded identifier sreg ax ud k :
  extract_openid_data data_fields identifier sreg ax = Ok ud →
  is_Some (ud !! k) →
  k ∈ [ "identifier"; "providerName"; "preferredUsername"; "verifiedEmail";
        "name"; "displayName"; "urls"; "gender"; "birthday" ].
Proof.
  intros H [v Hk].
  apply extract_openid_data_inv in H as (pu & ve & fn & urls & g & b & vs & nm & N).
  destruct (decide (k ∈ [ "identifier"; "providerName"; "preferredUsername";
                          "verifiedEmail"; "name"; "displayName"; "urls";
                          "gender"; "birthday" ])) as [Hin|Hout]; [done|].
  by rewrite (n_ud_other _ _ _ _ _ _ _ _ _ _ _ _ N k Hout) in Hk.
Qed.

(** X4. The identifier is handed through unchanged, and an empty
    identifier is dropped from the profile like any other empty value. *)
Theorem profile_identifier identifier sreg ax ud :
  extract_openid_data data_fields identifier sreg ax = Ok ud →
  ud !! "identifier"
  = if str_truthy identifier then Some (VAttr (Some identifier)) else None.
Proof.
  intros H.
  apply extract_openid_data_inv in H as (pu & ve & fn & urls & g & b & vs & nm & N).
  apply N.
Qed.

(** X5. For an identifier that does not contain "google.com",
    [extract_openid_data] returns a profile whenever the AX response
    carries at most one value per attribute. *)
Theorem extract_returns_for_other_providers identifier sreg ax :
  contains "google.com" identifier = false →
  ax_single_valued (default ∅ ax) →
  ∃ ud, extract_openid_data data_fields identifier sreg ax = Ok ud.
Proof.
  intros Hg Hsv. apply extract_openid_data_returns; [done|].
  intros Hg'. congruence.
Qed.

(** X6. For a Google identifier whose AX email is [local@rest], the call
    returns, the preferred username is [local] (dropped when [local] is
    empty), and the verified email is the whole address. *)
Theorem google_username_is_local_part identifier sreg axm local rest :
  contains "google.com" identifier = true →
  ax_single_valued axm →
  axm !! "http://axschema.org/contact/email"
  = Some [local ++ String "@" rest] →
  local_part_ok local →
  ∃ ud, extract_openid_data data_fields identifier sreg (Some axm) = Ok ud
        ∧ ud !! "preferredUsername" = keep (VAttr (Some local))
        ∧ ud !! "verifiedEmail"
          = Some (VAttr (Some (local ++ String "@" rest))).
Proof.
  intros Hg Hsv Hemail Hlocal.
  set (email := local ++ String "@" rest).
  assert (Hne : str_truthy email = true) by (subst email; by destruct local).
  assert (Hget : ∀ ax_only,
            get' (AttribAccess_init sreg (Some axm)) "email" ax_only
            = Ok (Some email)).
  { intros ax_only.
    rewrite (get_unfold _ _ _ "http://axschema.org/contact/email"
                        (Some email)).
    - cbn [attr_truthy]. by rewrite Hne.
    - by vm_compute.
    - unfold getSingle. cbn [AttribAccess_init ax_resp default from_option id].
      by rewrite Hemail. }
  assert (Hlp : email_local_part (Some email) = Ok local).
  { unfold email_local_part. subst email.
    by rewrite match_local_part_app. }
  destruct (extract_openid_data_returns data_fields identifier sreg
              (Some axm)) as [ud Hud]; [done|by eauto|].
  exists ud. split; [done|].
  apply extract_openid_data_inv in Hud as (pu & ve & fn & urls & g & b & vs & nm & N).
  pose proof (n_username _ _ _ _ _ _ _ _ _ _ _ _ N) as Hu.
  pose proof (n_verified _ _ _ _ _ _ _ _ _ _ _ _ N) as Hv.
  assert (Hp : infer_provider identifier = "Google")
    by (by rewrite infer_provider_if, Hg).
  rewrite Hp in Hu, Hv.
  rewrite bool_decide_eq_true_2 in Hu, Hv by done. cbn [orb] in Hv.
  destruct Hu as (email' & s & He & Hs & ->).
  rewrite Hget in He, Hv. injection He as <-. injection Hv as <-.
  rewrite Hlp in Hs. injection Hs as <-.
  split; [apply N|].
  rewrite (n_ud_verified _ _ _ _ _ _ _ _ _ _ _ _ N).
  unfold keep. cbn [truthy attr_truthy]. by rewrite Hne.
Qed.

(** X7. For a Google identifier, [extract_openid_data] raises
    [TypeError] when neither response has an email, and
    [AttributeError] when the email it finds has no ['@']. *)
Theorem google_identifier_needs_email identifier sreg ax a :
  contains "google.com" identifier = true →
  getSingle (default ∅ ax) "http://axschema.org/contact/email" = Ok a →
  attr_truthy a = false →
  (default ∅ sreg !! "email" = None →
   extract_openid_data data_fields identifier sreg ax = Raise TypeError)
  ∧ (∀ s, "email" ∈ data_fields →
          default ∅ sreg !! "email" = Some s →
          "@"%char ∉ list_ascii_of_string s →
          extract_openid_data data_fields identifier sreg ax = Raise AttributeError).
Proof.
  intros Hg Ha Hf.
  assert (Hp : infer_provider identifier = "Google")
    by (by rewrite infer_provider_if, Hg).
  assert (Hget : get' (AttribAccess_init sreg ax) "email" false
                 = Ok (if bool_decide ("email" ∈ data_fields)
                       then default ∅ sreg !! "email" else None)).
  { rewrite (get_unfold _ _ _ "http://axschema.org/contact/email" a);
      [|by vm_compute|done].
    rewrite Hf. replace (sreg_key "email") with "email" by (by vm_compute).
    by case_bool_decide. }
  split.
  - intros Hs. unfold extract_openid_data. rewrite first_step.
    rewrite item_is_provider, Hp, bool_decide_eq_true_2 by done.
    rewrite Hget, Hs. by case_bool_decide.
  - intros s Hdf Hs Hno. unfold extract_openid_data. rewrite first_step.
    rewrite item_is_provider, Hp, bool_decide_eq_true_2 by done.
    rewrite Hget, Hs, bool_decide_eq_true_2 by done.
    cbn [bind email_local_part]. by rewrite no_at_no_match.
Qed.

(** X8. On a single-valued AX response [AttribAccess.get] returns for
    the fifteen logical names of [ax_attributes] and raises [KeyError]
    for every other key. *)
Theorem get_key_error self key ax_only :
  ax_single_valued (ax_resp self) →
  (is_Some (ax_attributes !! key) →
   is_ok (get' self key ax_only) = true)
  ∧ (ax_attributes !! key = None →
     get' self key ax_only = Raise (KeyError key)).
Proof.
  intros Hsv. split.
  - intros Hk. destruct (get_total data_fields self key ax_only Hk Hsv)
      as [v ->]. done.
  - intros Hk. unfold get. by rewrite Hk.
Qed.

End NormalizerInvariants.

(** X9. With the registration fields of python-openid, the five name
    parts and 'web' have no simple-registration fallback: their value is
    the non-empty AX value or [None], whatever the registration response
    holds. *)
Theorem name_parts_come_from_ax_only self key uri a ax_only :
  key ∈ (name_keys ++ ["web"])%list →
  ax_attributes !! key = Some uri →
  getSingle (ax_resp self) uri = Ok a →
  get openid_sreg_data_fields self key ax_only
  = Ok (if attr_truthy a then a else None).
Proof.
  intros Hin Hk Ha. rewrite (get_unfold _ _ _ uri a) by done.
  destruct (attr_truthy a); [done|]. destruct ax_only; [done|].
  cbn in Hin. rewrite !elem_of_cons in Hin.
  destruct Hin as [->|[->|[->|[->|[->|[->|Hin]]]]]];
    [by vm_compute..|by apply elem_of_nil in Hin].
Qed.

(* ================================================================== *)
(** * Further properties of the consumer state machine                 *)
(* ================================================================== *)

Section ResponderExtras.

Variable data_fields : gset string.
Variable re_match : string → string → bool.
Variable consumer_begin : string → begin_outcome.
Variable redirectURL : authrequest → string → string → string.
Variable htmlMarkup : authrequest → string → string → string.
Variable consumer_complete :
  option stored → gmap string string → string → info.
Variable token_of : nat → string.
Variable error_redirect_effect : Z → string → world → world.

Local Abbreviation login' :=
  (login re_match consumer_begin redirectURL htmlMarkup
         error_redirect_effect).
Local Abbreviation process' :=
  (process data_fields consumer_complete token_of error_redirect_effect).

(** [login] on valid input for which [begin] hands back an auth
    request. *)
Lemma login_begun self req w end_point openid_url openid_session a :
  POST req !! "end_point" = Some end_point →
  POST req !! "openid_identifier" = Some openid_url →
  openid_url ≠ "" →
  re_match (endpoint_regex self) end_point = true →
  consumer_begin openid_url = Begun openid_session (Some a) →
  let a' := _update_authrequest req a in
  let sid := session_id (req_session w) in
  login' self req w
  = Ok (if shouldSendRedirect a
        then HTTPFound (redirectURL a' (realm self) (link_process req))
        else Body (htmlMarkup a' (realm self) (link_process req)),
        {| storage := <[sid := Attempt openid_session]> (storage w);
           calls := (calls w ++ [CallStore sid (Attempt openid_session) 300])%list;
           req_session :=
             {| session_id := sid;
                session_items :=
                  <["end_point" := end_point]>
                    (session_items (req_session w)) |};
           minted := minted w |}).
Proof.
  intros Hep Hurl Hne Hm Hb a' sid. unfold login. rewrite Hep, Hurl, Hm.
  assert (Ht : attr_truthy (Some openid_url) = true)
    by (by destruct openid_url).
  rewrite Ht. cbn [negb orb default from_option id].
  unfold _lookup_identifier. rewrite Hb.
  cbn [_update_authrequest shouldSendRedirect].
  by destruct (shouldSendRedirect a).
Qed.

(** X10. A [login] that gets an auth request stores the protocol state
    under the session id with an expiry of 300 seconds, in one storage
    call, records the end point in the session, and answers with a
    redirect or with a form as the auth request demands. *)
Theorem login_stores_attempt self req w end_point openid_url
    openid_session a :
  POST req !! "end_point" = Some end_point →
  POST req !! "openid_identifier" = Some openid_url →
  openid_url ≠ "" →
  re_match (endpoint_regex self) end_point = true →
  consumer_begin openid_url = Begun openid_session (Some a) →
  ∃ resp w',
    login' self req w = Ok (resp, w')
    ∧ (resp = if shouldSendRedirect a
              then HTTPFound (redirectURL (_update_authrequest req a)
                                          (realm self) (link_process req))
              else Body (htmlMarkup (_update_authrequest req a)
                                    (realm self) (link_process req)))
    ∧ calls w'
      = (calls w ++ [CallStore (session_id (req_session w))
                               (Attempt openid_session) 300])%list
    ∧ storage w' !! session_id (req_session w) = Some (Attempt openid_session)
    ∧ (∀ k, k ≠ session_id (req_session w) →
            storage w' !! k = storage w !! k)
    ∧ session_id (req_session w') = session_id (req_session w)
    ∧ session_items (req_session w') !! "end_point" = Some end_point.
Proof.
  intros Hep Hurl Hne Hm Hb.
  eexists _, _. split; [by eapply login_begun|].
  cbn [calls storage req_session session_id session_items].
  repeat split.
  - apply lookup_insert_eq.
  - intros k Hk. by rewrite lookup_insert_ne.
  - apply lookup_insert_eq.
Qed.

(** X11. [login] followed by [process]: after a [login] that stored a
    non-empty protocol state, a [process] call for the session finds the
    record, hands it to [complete], and on a failed or cancelled
    handshake redirects with code 2 to the end point given at [login];
    when the protocol state is the empty dict the same call takes the
    missing-attempt path (code 1). *)
Theorem login_then_process self req w end_point openid_url openid_session a
    req2 :
  POST req !! "end_point" = Some end_point →
  POST req !! "openid_identifier" = Some openid_url →
  openid_url ≠ "" →
  re_match (endpoint_regex self) end_point = true →
  consumer_begin openid_url = Begun openid_session (Some a) →
  let w1 := world_after w (login' self req w) in
  (openid_session ≠ ∅ →
   info_status (consumer_complete (Some (Attempt openid_session))
                                  (params req2) (link_process req2))
   ∈ [FAILURE; CANCEL] →
   response_of (process' self req2 w1) = Some (ErrorRedirect 2 end_point))
  ∧ (openid_session = ∅ →
     response_of (process' self req2 w1) = Some (ErrorRedirect 1 end_point)).
Proof.
  intros Hep Hurl Hne Hm Hb w1.
  assert (Hw1 : session_items (req_session w1) !! "end_point" = Some end_point
                ∧ storage w1 !! session_id (req_session w1)
                  = Some (Attempt openid_session)).
  { subst w1. rewrite (login_begun _ _ _ end_point openid_url openid_session a)
      by done.
    cbn [world_after req_session session_items session_id storage].
    by rewrite !lookup_insert_eq. }
  destruct Hw1 as [Hs Hst]. split.
  - intros Hne' Hin.
    assert (Htr : stored_truthy (storage w1 !! session_id (req_session w1))
                  = true).
    { rewrite Hst. cbn. by rewrite bool_decide_eq_false_2. }
    rewrite (process_not_success _ _ _ _ _ _ _ end_point Hs Htr);
      rewrite Hst.
    + cbn [response_of]. rewrite !elem_of_cons in Hin.
      destruct Hin as [-> | [-> | Hin]]; [done|done|].
      by apply elem_of_nil in Hin.
    + intros E. rewrite E in Hin. rewrite !elem_of_cons in Hin.
      destruct Hin as [? | [? | Hin]]; [done|done|].
      by apply elem_of_nil in Hin.
  - intros ->.
    rewrite (process_missing_attempt _ _ _ _ _ _ _ end_point Hs); [done|].
    rewrite Hst. cbn. by rewrite bool_decide_eq_true_2.
Qed.

(** X12. [login] without an identifier: when the form field
    [openid_identifier] is missing or empty, [login] makes the call
    [_error_redirect(0, end_point)], the one it makes for a rejected end
    point, whether or not the end point matches the pattern, and the
    error redirect receives the world as [login] received it: [login]
    has made no storage call and no session write of its own. *)
Theorem login_missing_identifier self req w end_point :
  POST req !! "end_point" = Some end_point →
  POST req !! "openid_identifier" = None
  ∨ POST req !! "openid_identifier" = Some "" →
  login' self req w
  = Ok (_error_redirect 0 end_point, error_redirect_effect 0 end_point w).
Proof.
  intros Hep Hid. unfold login. rewrite Hep.
  by destruct Hid as [-> | ->].
Qed.

(** X15. The result of a successful [process]: the envelope stored under
    the new token has status "ok", the normalized profile and, with the
    default [_get_access_token], no credentials even when the provider
    sent an OAuth request token; the expiry is 300 seconds; records
    under other keys are untouched; and the profile's identifier is the
    canonical id when the provider supplied one. *)
Theorem process_result_envelope self req w end_point user_data :
  session_items (req_session w) !! "end_point" = Some end_point →
  stored_truthy (storage w !! session_id (req_session w)) = true →
  let sid := session_id (req_session w) in
  let i := consumer_complete (storage w !! sid) (params req)
                             (link_process req) in
  info_status i = SUCCESS →
  extract_openid_data data_fields (openid_identity i) (info_sreg i)
                      (info_ax i) = Ok user_data →
  let token := token_of (minted w) in
  let rd := {| rd_status := "ok"; rd_profile := user_data;
               rd_credentials := None |} in
  let w' := world_after w (process' self req w) in
  response_of (process' self req w) = Some (TokenForm end_point token)
  ∧ storage w' !! token = Some (ResultData rd)
  ∧ last (calls w') = Some (CallStore token (ResultData rd) 300)
  ∧ (∀ k, k ≠ sid → k ≠ token → storage w' !! k = storage w !! k)
  ∧ minted w' = S (minted w)
  ∧ (∀ c, canonicalID i = Some c → c ≠ "" →
          user_data !! "identifier" = Some (VAttr (Some c))).
Proof.
  intros Hep Hs sid i Hst Hex token rd w'. subst w'.
  rewrite (process_success _ _ _ _ _ _ _ end_point user_data) by done.
  cbn [response_of world_after storage calls minted].
  fold sid. fold i. fold token. fold rd.
  repeat split.
  - apply lookup_insert_eq.
  - by rewrite last_app.
  - intros k ? ?. by rewrite lookup_insert_ne, lookup_delete_ne.
  - intros c Hc Hne.
    apply extract_openid_data_inv in Hex
      as (? & ? & ? & ? & ? & ? & ? & ? & N).
    rewrite (n_ud_identifier _ _ _ _ _ _ _ _ _ _ _ _ N).
    unfold openid_identity. rewrite Hc.
    destruct c; [done|]. reflexivity.
Qed.

End ResponderExtras.

Lemma ax_attributes_keys (key uri : string) :
  ax_attributes !! key = Some uri →
  key ∈ [ "nickname"; "email"; "full_name"; "birthday"; "gender";
          "postal_code"; "country"; "timezone"; "language"; "name_prefix";
          "first_name"; "last_name"; "middle_name"; "name_suffix"; "web" ].
Proof.
  intros H. unfold ax_attributes in H. apply elem_of_list_to_map_2 in H.
  rewrite !elem_of_cons in H. rewrite !elem_of_cons.
  repeat (destruct H as [[= -> _] | H]; [tauto|]).
  by apply elem_of_nil in H.
Qed.

(** X16. [_update_authrequest] keeps the auth request's transport choice
    and earlier extensions and appends two requests: an AX request that
    lists, once each, the fifteen URIs that [AttribAccess.get] probes,
    and a simple-registration request that lists every registration
    field that [AttribAccess.get] can fall back to, all of them
    recognized registration fields. *)
Theorem update_authrequest_requests (req : request) (a : authrequest) :
  shouldSendRedirect (_update_authrequest req a) = shouldSendRedirect a
  ∧ ∃ attrs optional,
      extensions (_update_authrequest req a)
      = (extensions a ++ [FetchRequest attrs; SRegRequest optional])%list
      ∧ (∀ key uri, ax_attributes !! key = Some uri → uri ∈ attrs)
      ∧ List.length attrs = 15%nat
      ∧ NoDup attrs
      ∧ (∀ key, is_Some (ax_attributes !! key) →
                sreg_key key ∈ openid_sreg_data_fields →
                sreg_key key ∈ optional)
      ∧ (∀ f, f ∈ optional → f ∈ openid_sreg_data_fields).
Proof.
  split; [done|]. eexists _, _. split; [reflexivity|].
  split; [|split; [|split; [|split]]].
  - intros key uri H. apply list_elem_of_fmap. exists (key, uri).
    split; [done|]. by apply elem_of_map_to_list.
  - by vm_compute.
  - apply NoDup_ListNoDup. vm_compute.
    repeat (constructor; [cbn; intuition discriminate|]). constructor.
  - intros key [uri Hk] Hin. apply ax_attributes_keys in Hk.
    rewrite !elem_of_cons in Hk.
    repeat (destruct Hk as [-> | Hk];
      [first [ by (vm_compute; in_list)
             | by (exfalso; revert Hin; vm_compute) ]|]).
    by apply elem_of_nil in Hk.
  - intros f Hf. rewrite !elem_of_cons in Hf.
    repeat (destruct Hf as [-> | Hf]; [by vm_compute|]).
    by apply elem_of_nil in Hf.
Qed.

Lemma key_map_items :
  map_to_list key_map
  = [ ("Endpoint Regex", "endpoint_regex"); ("Realm", "realm") ].
Proof. by vm_compute. Qed.

(** X17. [parse_config] returns exactly when the configuration has the
    section 'OpenID' and the objects 'OpenID Store' and 'UserStore', and
    otherwise raises [KeyError] for the first one missing, in that
    order.  The parameters it returns hold the two stores, the realm and
    the endpoint pattern exactly when the section has 'Realm' and
    'Endpoint Regex', and nothing else. *)
Theorem parse_config_params (cfg : config) :
  match cfg_openid cfg, cfg_openid_store cfg, cfg_user_store cfg with
  | None, _, _ => parse_config cfg = Raise (KeyError "OpenID")
  | Some _, None, _ => parse_config cfg = Raise (KeyError "OpenID Store")
  | Some _, Some _, None => parse_config cfg = Raise (KeyError "UserStore")
  | Some oids_vals, Some openid_store, Some user_store =>
    ∃ params,
      parse_config cfg = Ok params
      ∧ params !! "realm" = PStr <$> oids_vals !! "Realm"
      ∧ params !! "endpoint_regex" = PStr <$> oids_vals !! "Endpoint Regex"
      ∧ params !! "openid_store" = Some (PObj openid_store)
      ∧ params !! "storage" = Some (PObj user_store)
      ∧ ∀ k, k ∉ [ "realm"; "endpoint_regex"; "openid_store"; "storage" ] →
             params !! k = None
  end.
Proof.
  unfold parse_config. rewrite key_map_items.
  destruct (cfg_openid cfg) as [oids_vals|]; [|done].
  destruct (cfg_openid_store cfg) as [openid_store|]; [|done].
  destruct (cfg_user_store cfg) as [user_store|]; [|done].
  eexists. split; [reflexivity|]. cbn [foldl fst snd].
  destruct (oids_vals !! "Endpoint Regex") as [re|],
           (oids_vals !! "Realm") as [rm|];
    cbn [fmap option_fmap option_map]; map_lk; repeat split;
    intros k Hk; rewrite !not_elem_of_cons in Hk;
    destruct Hk as (? & ? & ? & ? & _); by map_lk.
Qed.

(* ================================================================== *)
(** * The further properties on concrete inputs                        *)
(* ================================================================== *)

Lemma ax_single_valued_empty : ax_single_valued ∅.
Proof. intros uri vs H. by rewrite lookup_empty in H. Defined.

Lemma ax_single_valued_singleton (uri v : string) :
  ax_single_valued {[ uri := [v] ]}.
Proof.
  intros uri' vs H. apply lookup_singleton_Some in H as [_ <-]. cbn. lia.
Defined.

Lemma alice_profile_returned :
  extract_openid_data openid_sreg_data_fields
    "https://example-provider/alice" (Some Example.alice_sreg) None
  = Ok (unwrap ∅
          (extract_openid_data openid_sreg_data_fields
             "https://example-provider/alice" (Some Example.alice_sreg)
             None)).
Proof. apply is_ok_unwrap. by vm_compute. Defined.

Lemma profile_items_nonempty_witness :
  ∃ ud,
    extract_openid_data openid_sreg_data_fields
      "https://example-provider/alice" (Some Example.alice_sreg) None = Ok ud
    ∧ ud !! "displayName" = Some (VAttr (Some "alice"))
    ∧ truthy (VAttr (Some "alice")) = true.
Proof.
  eexists. split; [exact alice_profile_returned|].
  assert (H : unwrap ∅
                (extract_openid_data openid_sreg_data_fields
                   "https://example-provider/alice"
                   (Some Example.alice_sreg) None) !! "displayName"
              = Some (VAttr (Some "alice"))) by (by vm_compute).
  split; [exact H|].
  exact (profile_items_nonempty _ _ _ _ _ _ _ alice_profile_returned H).
Defined.

Lemma profile_name_parts_nonempty_witness :
  ∃ ud nm,
    extract_openid_data openid_sreg_data_fields
      "https://example-provider/alice" (Some Example.alice_sreg) None = Ok ud
    ∧ ud !! "name" = Some (VDict nm)
    ∧ is_Some (nm !! "formatted").
Proof.
  destruct (profile_name_parts_nonempty _ _ _ _ _ alice_profile_returned)
    as (nm & Hn & Hf & _).
  eexists _, nm. split; [exact alice_profile_returned|]. by split.
Defined.

Lemma profile_keys_bounded_witness :
  ∃ ud,
    extract_openid_data openid_sreg_data_fields
      "https://example-provider/alice" (Some Example.alice_sreg) None = Ok ud
    ∧ is_Some (ud !! "providerName")
    ∧ "providerName"
      ∈ [ "identifier"; "providerName"; "preferredUsername";
          "verifiedEmail"; "name"; "displayName"; "urls"; "gender";
          "birthday" ].
Proof.
  eexists. split; [exact alice_profile_returned|].
  assert (H : is_Some (unwrap ∅
                (extract_openid_data openid_sreg_data_fields
                   "https://example-provider/alice"
                   (Some Example.alice_sreg) None) !! "providerName"))
    by (by vm_compute; eauto).
  split; [exact H|].
  exact (profile_keys_bounded _ _ _ _ _ _ alice_profile_returned H).
Defined.

Lemma profile_identifier_witness :
  ∃ ud,
    extract_openid_data openid_sreg_data_fields
      "https://example-provider/alice" (Some Example.alice_sreg) None = Ok ud
    ∧ ud !! "identifier"
      = Some (VAttr (Some "https://example-provider/alice")).
Proof.
  eexists. split; [exact alice_profile_returned|].
  exact (profile_identifier _ _ _ _ _ alice_profile_returned).
Defined.

Lemma extract_returns_for_other_providers_witness :
  ∃ ud,
    extract_openid_data openid_sreg_data_fields
      "https://example-provider/alice" (Some Example.alice_sreg) None = Ok ud.
Proof.
  apply extract_returns_for_other_providers;
    [by vm_compute|exact ax_single_valued_empty].
Defined.

Lemma google_username_is_local_part_witness :
  ∃ ud,
    extract_openid_data openid_sreg_data_fields
      "https://www.google.com/accounts/o8/id?id=AItOawk" None
      (Some {[ "http://axschema.org/contact/email" := ["alice@gmail.com"] ]})
    = Ok ud
    ∧ ud !! "preferredUsername" = Some (VAttr (Some "alice"))
    ∧ ud !! "verifiedEmail" = Some (VAttr (Some "alice@gmail.com")).
Proof.
  apply (google_username_is_local_part openid_sreg_data_fields
           "https://www.google.com/accounts/o8/id?id=AItOawk" None
           {[ "http://axschema.org/contact/email" := ["alice@gmail.com"] ]}
           "alice" "gmail.com").
  - by vm_compute.
  - apply ax_single_valued_singleton.
  - by vm_compute.
  - intros c Hc. cbn in Hc. rewrite !elem_of_cons in Hc.
    repeat (destruct Hc as [-> | Hc]; [by split|]).
    by apply elem_of_nil in Hc.
Defined.

Lemma google_identifier_needs_email_witness :
  extract_openid_data openid_sreg_data_fields
    "https://www.google.com/accounts/o8/id?id=AItOawk" None None
  = Raise TypeError
  ∧ extract_openid_data openid_sreg_data_fields
      "https://www.google.com/accounts/o8/id?id=AItOawk"
      (Some {[ "email" := "alice" ]}) None
    = Raise AttributeError.
Proof.
  split.
  - apply (proj1 (google_identifier_needs_email openid_sreg_data_fields
                    "https://www.google.com/accounts/o8/id?id=AItOawk"
                    None None None eq_refl eq_refl eq_refl)).
    by vm_compute.
  - apply (proj2 (google_identifier_needs_email openid_sreg_data_fields
                    "https://www.google.com/accounts/o8/id?id=AItOawk"
                    (Some {[ "email" := "alice" ]}) None None
                    eq_refl eq_refl eq_refl) "alice").
    + by vm_compute.
    + by vm_compute.
    + cbn. rewrite !not_elem_of_cons.
      repeat split; try discriminate. apply not_elem_of_nil.
Defined.

Lemma get_key_error_witness :
  is_ok (get openid_sreg_data_fields (AttribAccess_init None None)
             "nickname" false) = true
  ∧ get openid_sreg_data_fields (AttribAccess_init None None) "phone" false
    = Raise (KeyError "phone").
Proof.
  destruct (get_key_error openid_sreg_data_fields
              (AttribAccess_init None None) "nickname" false
              ax_single_valued_empty) as [H1 _].
  destruct (get_key_error openid_sreg_data_fields
              (AttribAccess_init None None) "phone" false
              ax_single_valued_empty) as [_ H2].
  split; [apply H1; by vm_compute; eauto|apply H2; by vm_compute].
Defined.

Lemma name_parts_come_from_ax_only_witness :
  get openid_sreg_data_fields
      (AttribAccess_init (Some {[ "first_name" := "Alice" ]}) None)
      "first_name" false
  = Ok None.
Proof.
  apply (name_parts_come_from_ax_only
           (AttribAccess_init (Some {[ "first_name" := "Alice" ]}) None)
           "first_name" "http://axschema.org/namePerson/first" None false).
  - cbn. in_list.
  - by vm_compute.
  - by vm_compute.
Defined.

Lemma login_stores_attempt_witness :
  ∃ w',
    Example.login'
      (Example.login_request "https://app.example/cb"
                             "https://example-provider/alice")
      Example.idle
    = Ok (HTTPFound
            "https://example-provider/auth?return_to=https://broker.example/process",
          w')
    ∧ storage w' !! "session-1"
      = Some (Attempt {[ "_openid_consumer_last_token" :=
                           "https://example-provider/alice" ]})
    ∧ session_items (req_session w') !! "end_point"
      = Some "https://app.example/cb".
Proof.
  destruct (login_stores_attempt
              Example.re_match Example.consumer_begin Example.redirectURL
              Example.htmlMarkup Example.error_redirect_effect
              Example.responder
              (Example.login_request "https://app.example/cb"
                                     "https://example-provider/alice")
              Example.idle "https://app.example/cb"
              "https://example-provider/alice"
              {[ "_openid_consumer_last_token" :=
                   "https://example-provider/alice" ]}
              {| shouldSendRedirect := true; extensions := [] |})
    as (resp & w' & E & -> & _ & Hs & _ & _ & Hep); [by vm_compute..|].
  exists w'. split; [exact E|]. by split.
Defined.

Lemma login_then_process_witness :
  response_of
    (Example.process' (Example.process_request "cancel")
       (world_after Example.idle
          (Example.login'
             (Example.login_request "https://app.example/cb"
                                    "https://example-provider/alice")
             Example.idle)))
  = Some (ErrorRedirect 2 "https://app.example/cb").
Proof.
  destruct (login_then_process
           openid_sreg_data_fields Example.re_match Example.consumer_begin
           Example.redirectURL Example.htmlMarkup Example.consumer_complete
           Example.token_of Example.error_redirect_effect Example.responder
           (Example.login_request "https://app.example/cb"
                                  "https://example-provider/alice")
           Example.idle "https://app.example/cb"
           "https://example-provider/alice"
           {[ "_openid_consumer_last_token" :=
                "https://example-provider/alice" ]}
           {| shouldSendRedirect := true; extensions := [] |}
           (Example.process_request "cancel")) as [H _];
    [by vm_compute..|].
  apply H.
  - apply map_non_empty_singleton.
  - change (CANCEL ∈ [FAILURE; CANCEL]). in_list.
Defined.

Lemma login_missing_identifier_witness :
  Example.login'
    {| POST := {[ "end_point" := "https://app.example/cb" ]};
       params := ∅;
       link_process := "https://broker.example/process" |}
    Example.idle
  = Ok (ErrorRedirect 0 "https://app.example/cb",
        Example.error_redirect_effect 0 "https://app.example/cb"
                                      Example.idle).
Proof.
  apply login_missing_identifier; [by vm_compute|left; by vm_compute].
Defined.

Lemma process_result_envelope_witness :
  response_of (Example.process' (Example.process_request "id_res")
                                Example.pending)
  = Some (TokenForm "https://app.example/cb" "token")
  ∧ minted (world_after Example.pending
              (Example.process' (Example.process_request "id_res")
                                Example.pending)) = 1%nat.
Proof.
  destruct (process_result_envelope
              openid_sreg_data_fields Example.consumer_complete
              Example.token_of Example.error_redirect_effect
              Example.responder
              (Example.process_request "id_res") Example.pending
              "https://app.example/cb"
              (unwrap ∅
                 (extract_openid_data openid_sreg_data_fields
                    "https://example-provider/alice"
                    (Some Example.alice_sreg) None)))
    as (H1 & _ & _ & _ & H5 & _);
    [by vm_compute|by vm_compute|by vm_compute|exact alice_profile_returned|].
  by split.
Defined.
